(** * gemini_cli.tools: directory and tree tools

    A shallow embedding of [src/gemini_cli/tools/directory_tools.py] and
    [src/gemini_cli/tools/tree_tool.py].

    Python [str] values are modelled as [string]; one [ascii] stands for one
    code point below 256.  Integers are [Z].  The host (filesystem, external
    processes, [os.path]) is an explicit parameter of every tool, and a tool
    call is a computation in a small state-and-exception monad over the
    observable world (filesystem contents and the list of spawned commands).
    Calls to the logger have no effect on either and are left out. *)

From Stdlib Require Import ZArith Ascii String DecimalString.
From stdpp Require Import base option list strings gmap.

Local Open Scope Z_scope.

(** ** Python string methods used by the tools *)

Module Str.

Definition code (c : ascii) : N := N_of_ascii c.

(** [str.isspace] on one code point (Latin-1 range). *)
Definition is_space (c : ascii) : bool :=
  let n := code c in
  (((9 <=? n) && (n <=? 13)) || ((28 <=? n) && (n <=? 32))
   || (n =? 133) || (n =? 160))%N.

(** Line boundaries recognised by [str.splitlines] (Latin-1 range). *)
Definition is_linebreak (c : ascii) : bool :=
  let n := code c in
  (((10 <=? n) && (n <=? 13)) || ((28 <=? n) && (n <=? 30)) || (n =? 133))%N.

Definition LF : ascii := "010"%char.
Definition CR : ascii := "013"%char.

(** [s.startswith(p)] *)
Definition startswith (s p : string) : bool := String.prefix p s.

(** [needle in hay] *)
Fixpoint contains (needle hay : string) : bool :=
  String.prefix needle hay
  || match hay with
     | EmptyString => false
     | String _ hay' => contains needle hay'
     end.

(** [bool(s)] *)
Definition truthy (s : string) : bool :=
  match s with EmptyString => false | _ => true end.

Definition lower_char (c : ascii) : ascii :=
  let n := code c in
  if (((65 <=? n) && (n <=? 90))
      || ((192 <=? n) && (n <=? 222) && negb (n =? 215)))%N
  then ascii_of_N (n + 32) else c.

(** [s.lower()] *)
Fixpoint lower (s : string) : string :=
  match s with
  | EmptyString => EmptyString
  | String c s' => String (lower_char c) (lower s')
  end.

Fixpoint lstrip_by (p : ascii -> bool) (s : string) : string :=
  match s with
  | EmptyString => EmptyString
  | String c s' => if p c then lstrip_by p s' else s
  end.

Fixpoint rstrip_by (p : ascii -> bool) (s : string) : string :=
  match s with
  | EmptyString => EmptyString
  | String c s' =>
      match rstrip_by p s' with
      | EmptyString => if p c then EmptyString else String c EmptyString
      | r => String c r
      end
  end.

(** [s.strip()] *)
Definition strip (s : string) : string := rstrip_by is_space (lstrip_by is_space s).

Definition cons_char (c : ascii) (ls : list string) : list string :=
  match ls with
  | [] => [String c EmptyString]
  | l :: ls' => String c l :: ls'
  end.

(** [s.split(sep)] for a one-character separator. *)
Fixpoint split (sep : ascii) (s : string) : list string :=
  match s with
  | EmptyString => [EmptyString]
  | String c s' =>
      if Ascii.eqb c sep then EmptyString :: split sep s'
      else cons_char c (split sep s')
  end.

(** [s.splitlines()]: a carriage return followed by a line feed is one
    boundary, and a final boundary opens no further line. *)
Fixpoint splitlines (s : string) : list string :=
  match s with
  | EmptyString => []
  | String c s' =>
      if is_linebreak c then
        match s' with
        | String c2 s'' =>
            if Ascii.eqb c CR && Ascii.eqb c2 LF
            then EmptyString :: splitlines s''
            else EmptyString :: splitlines s'
        | EmptyString => [EmptyString]
        end
      else cons_char c (splitlines s')
  end.

(** [sep.join(ls)] *)
Definition join (sep : string) (ls : list string) : string := String.concat sep ls.

(** [str(n)] for an integer. *)
Definition of_int (n : Z) : string := NilZero.string_of_int (Z.to_int n).

End Str.

(** ** Exceptions, results and the observable world *)

(** The exception classes that the tools distinguish.  [OSError] and
    [Exception] stand for any other member of these families.  Interrupts
    and interpreter exits, which are not instances of [Exception] and do not
    come from the arguments, are not part of the model. *)
Inductive exn_class :=
  | FileNotFoundError | FileExistsError | NotADirectoryError | PermissionError
  | OSError | TimeoutExpired | ValueError | Exception.

Global Instance exn_class_eq_dec : EqDecision exn_class.
Proof. solve_decision. Defined.

Record exn := mk_exn { exn_cls : exn_class; exn_str : string }.

(** [isinstance(e, c)], following Python's class hierarchy. *)
Definition isinstance (e : exn) (c : exn_class) : bool :=
  match c with
  | Exception => true
  | OSError =>
      match exn_cls e with
      | FileNotFoundError | FileExistsError | NotADirectoryError
      | PermissionError | OSError => true
      | _ => false
      end
  | _ => bool_decide (exn_cls e = c)
  end.

Inductive result (A : Type) :=
  | Returned (a : A)
  | Raised (e : exn).
Arguments Returned {A} a.
Arguments Raised {A} e.

Inductive kind := Dir | File.

Global Instance kind_eq_dec : EqDecision kind.
Proof. solve_decision. Defined.

(** What a tool call can observe and change: the filesystem entries, keyed
    by absolute path, and the external commands launched so far, each with
    its [shell] flag. *)
Record World := mkWorld {
  fs : gmap string kind;
  calls : list (list string * bool)
}.

Definition M (A : Type) : Type := World -> result A * World.

Global Instance M_ret : MRet M := fun A a w => (Returned a, w).
Global Instance M_bind : MBind M := fun A B k m w =>
  match m w with
  | (Returned a, w') => k a w'
  | (Raised e, w') => (Raised e, w')
  end.

Definition raise {A} (e : exn) : M A := fun w => (Raised e, w).

Definition lift {A} (r : result A) : M A := fun w => (r, w).

(** [try: body  except c1 as e: h1 e  except c2 as e: h2 e ...]: the first
    clause whose class the exception is an instance of handles it. *)
Fixpoint dispatch {A} (handlers : list (exn_class * (exn -> M A))) (e : exn) : M A :=
  match handlers with
  | [] => raise e
  | (c, handler) :: rest => if isinstance e c then handler e else dispatch rest e
  end.

Definition try_except {A} (body : M A) (handlers : list (exn_class * (exn -> M A))) : M A :=
  fun w =>
    match body w with
    | (Returned a, w') => (Returned a, w')
    | (Raised e, w') => dispatch handlers e w'
    end.

(** [m] ends by returning a value, in every world. *)
Definition returns {A} (m : M A) : Prop :=
  forall w, exists a w', m w = (Returned a, w').

(** ** The host *)

(** The functions of [os.path] that the tools call.  [parents p] lists the
    proper ancestors of [p], outermost first, as [os.makedirs] visits them. *)
Record OsPath := {
  sep : ascii;
  normpath : string -> string;
  expanduser : string -> string;
  abspath : string -> result string;
  parents : string -> list string
}.

Record CompletedProcess := {
  returncode : Z;
  stdout : string;
  stderr : string
}.

(** A host fixes the platform flag, its [os.path], the faults its [mkdir]
    system call reports for reasons outside the model (permissions, quotas),
    and what running a command yields: a completed process or an exception
    ([FileNotFoundError] when the executable is missing, [TimeoutExpired]
    after the 15 second limit, or any other). *)
Record Host := {
  IS_WINDOWS : bool;
  os_path : OsPath;
  mkdir_fault : string -> option exn;
  run_outcome : list string -> bool -> World -> result CompletedProcess
}.

(** POSIX [os.path], after CPython's [posixpath]. *)
Module posixpath.

Definition isabs (s : string) : bool := Str.startswith s "/".

Fixpoint endswith_char (c : ascii) (s : string) : bool :=
  match s with
  | EmptyString => false
  | String c' EmptyString => Ascii.eqb c' c
  | String _ s' => endswith_char c s'
  end.

(** [posixpath.join(a, b)] *)
Definition join (a b : string) : string :=
  if Str.startswith b "/" then b
  else if negb (Str.truthy a) || endswith_char "/" a then a +:+ b
  else a +:+ "/" +:+ b.

Definition is_nil {A} (l : list A) : bool :=
  match l with [] => true | _ => false end.

(** One iteration of the loop over the components in [normpath]. *)
Definition normpath_step (initial_slashes : nat) (new_comps : list string)
    (comp : string) : list string :=
  if String.eqb comp "" || String.eqb comp "." then new_comps
  else if negb (String.eqb comp "..")
          || (Nat.eqb initial_slashes 0 && is_nil new_comps)
          || (negb (is_nil new_comps)
              && String.eqb (List.last new_comps "") "..")
  then new_comps ++ [comp]
  else if negb (is_nil new_comps) then removelast new_comps
  else new_comps.

Definition initial_slashes (path : string) : nat :=
  if Str.startswith path "/" then
    if Str.startswith path "//" && negb (Str.startswith path "///")
    then 2%nat else 1%nat
  else 0%nat.

Definition components (path : string) : list string :=
  fold_left (normpath_step (initial_slashes path)) (Str.split "/" path) [].

Fixpoint slashes (n : nat) : string :=
  match n with O => "" | S n' => String "/" (slashes n') end.

Definition normpath (path : string) : string :=
  if String.eqb path "" then "."
  else
    let path' := slashes (initial_slashes path)
                 +:+ Str.join "/" (components path) in
    if String.eqb path' "" then "." else path'.

(** [(s[:i], s[i:])] for [i = s.find(sep)], or [(s, "")] without [sep]. *)
Fixpoint break_at (c : ascii) (s : string) : string * string :=
  match s with
  | EmptyString => (EmptyString, EmptyString)
  | String c' s' =>
      if Ascii.eqb c' c then (EmptyString, s)
      else let '(a, b) := break_at c s' in (String c' a, b)
  end.

Section Env.
(** The process environment: the working directory ([None] when
    [os.getcwd] fails), the home of the current user as given by [HOME]
    or the password database, and the homes of named users. *)
Variable cwd : option string.
Variable home : option string.
Variable pw_dir : string -> option string.

Definition expanduser (path : string) : string :=
  match path with
  | String "~" tail =>
      let '(name, rest) := break_at "/" tail in
      let userhome := if String.eqb name "" then home else pw_dir name in
      match userhome with
      | None => path
      | Some userhome =>
          let userhome := Str.rstrip_by (Ascii.eqb "/") userhome in
          let r := userhome +:+ rest in
          if String.eqb r "" then "/" else r
      end
  | _ => path
  end.

Definition abspath (path : string) : result string :=
  if isabs path then Returned (normpath path)
  else match cwd with
       | Some d => Returned (normpath (join d path))
       | None => Raised (mk_exn FileNotFoundError
                           "[Errno 2] No such file or directory")
       end.

Definition parents (p : string) : list string :=
  let cs := filter (fun c => c <> "") (Str.split "/" p) in
  (fun k => "/" +:+ Str.join "/" (take k cs)) <$> seq 0 (length cs).

Definition os_path : OsPath :=
  Build_OsPath "/" normpath expanduser abspath parents.
End Env.

End posixpath.

(** ** Filesystem and process primitives *)

Definition set_fs (f : gmap string kind -> gmap string kind) (w : World) : World :=
  {| fs := f (fs w); calls := calls w |}.

(** The world after one more command has been launched. *)
Definition record_call (command : list string) (shell : bool) (w : World) : World :=
  {| fs := fs w; calls := calls w ++ [(command, shell)] |}.

(** [os.path.exists] *)
Definition path_exists (p : string) : M bool :=
  fun w => (Returned (bool_decide (is_Some (fs w !! p))), w).

(** [os.path.isdir] *)
Definition isdir (p : string) : M bool :=
  fun w => (Returned (bool_decide (fs w !! p = Some Dir)), w).

Section Tools.

Variable h : Host.

(** [os.mkdir p], where [parent] is the directory that must hold the new
    entry ([None] for an entry directly under the root of the tree). *)
Definition mkdir (parent : option string) (p : string) : M unit :=
  fun w =>
    match fs w !! p with
    | Some _ => (Raised (mk_exn FileExistsError ("[Errno 17] File exists: '" +:+ p +:+ "'")), w)
    | None =>
        match parent ≫= fun q => Some (fs w !! q) with
        | Some None =>
            (Raised (mk_exn FileNotFoundError
                       ("[Errno 2] No such file or directory: '" +:+ p +:+ "'")), w)
        | Some (Some File) =>
            (Raised (mk_exn NotADirectoryError
                       ("[Errno 20] Not a directory: '" +:+ p +:+ "'")), w)
        | _ =>
            match mkdir_fault h p with
            | Some e => (Raised e, w)
            | None => (Returned tt, set_fs (insert p Dir) w)
            end
        end
    end.

(** [os.makedirs(name, exist_ok=True)]: every missing ancestor is made,
    outermost first, then [name] itself; an [OSError] on [name] is
    swallowed when [name] is a directory by then. *)
Fixpoint makedirs_from (parent : option string) (chain : list string)
    (name : string) : M unit :=
  match chain with
  | [] =>
      try_except (mkdir parent name)
        [ (OSError, fun e =>
             d ← isdir name;
             if d : bool then mret tt else raise e) ]
  | a :: chain' =>
      ex ← path_exists a;
      (if ex : bool then mret tt
       else try_except (mkdir parent a) [ (FileExistsError, fun _ => mret tt) ]) ;;
      makedirs_from (Some a) chain' name
  end.

Definition makedirs (name : string) : M unit :=
  makedirs_from None (parents (os_path h) name) name.

(** [subprocess.run(command, capture_output=True, text=True, check=False,
    timeout=15, shell=shell)] *)
Definition subprocess_run (command : list string) (shell : bool) : M CompletedProcess :=
  fun w =>
    (run_outcome h command shell w, record_call command shell w).

(** ** directory_tools.py *)

(** [CreateDirectoryTool.execute] *)
Definition create_directory_execute (dir_path : string) : M string :=
  try_except
    (if bool_decide (".." ∈ Str.split (sep (os_path h)) dir_path) then
       mret ("Error: Invalid path '" +:+ dir_path
             +:+ "'. Cannot access parent directories.")
     else
       target_path ← lift (abspath (os_path h) (expanduser (os_path h) dir_path));
       ex ← path_exists target_path;
       if ex : bool then
         d ← isdir target_path;
         if d : bool then mret ("Directory already exists: " +:+ dir_path)
         else mret ("Error: Path exists but is not a directory: " +:+ dir_path)
       else
         makedirs target_path ;;
         mret ("Successfully created directory: " +:+ dir_path))
    [ (OSError, fun e => mret ("Error creating directory: " +:+ exn_str e));
      (Exception, fun e => mret ("Error creating directory: " +:+ exn_str e)) ].

Definition ls_command (target_path : string) : list string :=
  if IS_WINDOWS h then ["dir"; "/a"; target_path]
  else ["ls"; "-lA"; target_path].

(** The part of [LsTool.execute] after the path check. *)
Definition ls_run (target_path : string) : M string :=
  let command := ls_command target_path in
  try_except
    (process ← subprocess_run command (IS_WINDOWS h);
     if returncode process =? 0 then
       let output := Str.strip (stdout process) in
       let output :=
         if (100 <? length (Str.splitlines output))%nat
         then Str.join (String Str.LF "") (take 100 (Str.splitlines output))
              +:+ String Str.LF "... (output truncated)"
         else output in
       mret output
     else
       let stderr_lower := Str.lower (stderr process) in
       if Str.contains "no such file or directory" stderr_lower
          || Str.contains "cannot find the path" stderr_lower
       then mret ("Error: Directory not found: '" +:+ target_path +:+ "'")
       else
         let error_detail :=
           if Str.truthy (stderr process) then Str.strip (stderr process)
           else "(No stderr)" in
         mret ("Error executing directory listing command (Code: "
               +:+ Str.of_int (returncode process) +:+ "): " +:+ error_detail))
    [ (FileNotFoundError, fun _ =>
         let cmd_name := if IS_WINDOWS h then "dir" else "ls" in
         mret ("Error: '" +:+ cmd_name
               +:+ "' command not found. Please ensure it is installed and in the system's PATH."));
      (TimeoutExpired, fun _ =>
         mret ("Error: Directory listing timed out for path '" +:+ target_path +:+ "'."));
      (Exception, fun e =>
         mret ("An unexpected error occurred while executing directory listing: "
               +:+ exn_str e)) ].

(** [if path:] on an optional string. *)
Definition given (path : option string) : bool :=
  match path with Some p => Str.truthy p | None => false end.

(** [LsTool.execute] *)
Definition ls_execute (path : option string) : M string :=
  let target_path := "." in
  if given path then
    let target_path := normpath (os_path h) (default "" path) in
    if Str.startswith target_path ".." then
      mret ("Error: Invalid path '" +:+ default "" path
            +:+ "'. Cannot access parent directories.")
    else ls_run target_path
  else ls_run target_path.

(** ** tree_tool.py *)

Definition DEFAULT_TREE_DEPTH : Z := 3.
Definition MAX_TREE_DEPTH : Z := 10.

Definition tree_depth_limit (depth : option Z) : Z :=
  match depth with
  | None => DEFAULT_TREE_DEPTH
  | Some depth => Z.max 1 (Z.min depth MAX_TREE_DEPTH)
  end.

Definition tree_target (path : option string) : string :=
  let target_path := "." in
  if given path then default "" path else target_path.

Definition tree_command (path : option string) (depth : option Z) : list string :=
  if IS_WINDOWS h then ["tree"; tree_target path]
  else ["tree"; "-L"; Str.of_int (tree_depth_limit depth); tree_target path].

(** [TreeTool.execute] *)
Definition tree_execute (path : option string) (depth : option Z) : M string :=
  let depth_limit := tree_depth_limit depth in
  let target_path := tree_target path in
  let command := tree_command path depth in
  try_except
    (process ← subprocess_run command (IS_WINDOWS h);
     if returncode process =? 0 then
       let output := Str.strip (stdout process) in
       let output :=
         if (200 <? length (Str.splitlines output))%nat
         then Str.join (String Str.LF "") (take 200 (Str.splitlines output))
              +:+ String Str.LF "... (output truncated)"
         else output in
       mret output
     else if (returncode process =? 127)
             || Str.contains "command not found" (Str.lower (stderr process))
     then mret "Error: 'tree' command not found. Please ensure it is installed and in the system's PATH."
     else
       let error_detail :=
         if Str.truthy (stderr process) then Str.strip (stderr process)
         else "(No stderr)" in
       mret ("Error executing tree command (Code: "
             +:+ Str.of_int (returncode process) +:+ "): " +:+ error_detail))
    [ (FileNotFoundError, fun _ =>
         if IS_WINDOWS h then
           mret "Error: 'tree' command not found. This is a built-in Windows command, so this may indicate a system issue."
         else
           mret "Error: 'tree' command not found. Please install it using your package manager (e.g., 'apt-get install tree' on Debian/Ubuntu).");
      (TimeoutExpired, fun _ =>
         mret ("Error: Tree command timed out for path '" +:+ target_path
               +:+ "'. The directory might be too large or complex."));
      (Exception, fun e =>
         mret ("An unexpected error occurred while executing tree: " +:+ exn_str e)) ].

End Tools.

(** ** Derived notions used in the statements *)

Definition LINE_FEED : string := String Str.LF "".
Definition TRUNCATION_MARKER : string := "... (output truncated)".

Definition invalid_path_message (path : string) : string :=
  "Error: Invalid path '" +:+ path +:+ "'. Cannot access parent directories.".

(** The path that [LsTool.execute] hands to the listing command. *)
Definition ls_target (h : Host) (path : option string) : string :=
  if given path then normpath (os_path h) (default "" path) else ".".

(** Whether [LsTool.execute] refuses [path]. *)
Definition ls_rejects (h : Host) (path : option string) : bool :=
  given path && Str.startswith (normpath (os_path h) (default "" path)) "..".

(** [r] is the text [out] cut to a budget of [n] lines. *)
Definition sanitized (n : nat) (out r : string) : Prop :=
  let lines := Str.splitlines out in
  ((n < length lines)%nat ->
     r = Str.join LINE_FEED (take n lines ++ [TRUNCATION_MARKER])
     /\ Str.splitlines r = take n lines ++ [TRUNCATION_MARKER]
     /\ length (Str.splitlines r) = S n)
  /\ ((length lines <= n)%nat -> r = out).

(** A POSIX host: [posixpath] over the given environment, with the given
    [mkdir] faults and command outcomes. *)
Definition posix_host (cwd home : option string) (pw_dir : string -> option string)
    (faults : string -> option exn)
    (run : list string -> bool -> World -> result CompletedProcess) : Host :=
  {| IS_WINDOWS := false;
     os_path := posixpath.os_path cwd home pw_dir;
     mkdir_fault := faults;
     run_outcome := run |}.

(** A Unix-class host with working directory [cwd], home directory [home],
    no faults on [mkdir], and a fixed outcome for every command. *)
Definition unix_host (cwd home : option string)
    (outcome : result CompletedProcess) : Host :=
  posix_host cwd home (fun _ => None) (fun _ => None) (fun _ _ _ => outcome).

(** The components of a path that [posixpath.normpath] keeps when the path
    has no parent segment: all but the empty ones and [.]. *)
Definition own_components (path : string) : list string :=
  filter (fun c => c <> "" /\ c <> ".") (Str.split "/" path).

(** A small tree: [/work] holds the file [notes]; [/home/u] is empty. *)
Definition sample_world : World :=
  {| fs := list_to_map [("/", Dir); ("/work", Dir); ("/work/notes", File);
                        ("/home", Dir); ("/home/u", Dir)];
     calls := [] |}.

(** A Windows-class host over an arbitrary [os.path]. *)
Definition windows_host (op : OsPath) (outcome : result CompletedProcess) : Host :=
  {| IS_WINDOWS := true;
     os_path := op;
     mkdir_fault := fun _ => None;
     run_outcome := fun _ _ _ => outcome |}.

Definition empty_world : World := {| fs := ∅; calls := [] |}.

Definition completed (rc : Z) (out err : string) : result CompletedProcess :=
  Returned {| returncode := rc; stdout := out; stderr := err |}.

(** A run of an external command that did not succeed: a non-zero exit
    status or an exception. *)
Definition failed_run (o : result CompletedProcess) : bool :=
  match o with
  | Returned process => negb (returncode process =? 0)
  | Raised _ => true
  end.

(** The exception of a run that neither reports a missing executable nor a
    timeout. *)
Definition unexpected (o : result CompletedProcess) : option exn :=
  match o with
  | Raised e =>
      if isinstance e FileNotFoundError || isinstance e TimeoutExpired
      then None else Some e
  | Returned _ => None
  end.

(** The standard error text names a missing path. *)
Definition names_missing_path (err : string) : bool :=
  Str.contains "no such file or directory" (Str.lower err)
  || Str.contains "cannot find the path" (Str.lower err).

(** Every character of [s] satisfies [p]. *)
Fixpoint all_chars (p : ascii -> bool) (s : string) : bool :=
  match s with
  | EmptyString => true
  | String c s' => p c && all_chars p s'
  end.

(** A string without any line boundary. *)
Definition single_line (s : string) : bool :=
  all_chars (fun c => negb (Str.is_linebreak c)) s.

(** [w'] differs from [w] at most by new directories at the paths in
    [allowed]: every entry of [w] is kept as it is, and no command has been
    launched in between. *)
Definition grows (allowed : list string) (w w' : World) : Prop :=
  calls w' = calls w
  /\ (forall p k, fs w !! p = Some k -> fs w' !! p = Some k)
  /\ (forall p, fs w !! p = None -> is_Some (fs w' !! p) ->
        fs w' !! p = Some Dir /\ p ∈ allowed).

(** The faults that the host's [mkdir] reports never claim that the entry
    exists: [FileExistsError] is raised for entries that are there. *)
Definition genuine_faults (h : Host) : Prop :=
  forall p e, mkdir_fault h p = Some e -> exn_cls e <> FileExistsError.

(** An ordinary path component: not empty, not [.] or [..], and without a
    slash inside. *)
Definition ordinary (c : string) : Prop :=
  c <> "" /\ c <> "." /\ c <> ".."
  /\ all_chars (fun x => negb (Ascii.eqb x "/")) c = true.

(** The form of a normalised component list: some parent segments, none of
    them when the path is absolute, followed by ordinary components. *)
Definition normal_form (initial_slashes : nat) (comps : list string) : Prop :=
  exists n r,
    comps = replicate n ".." ++ r /\ Forall ordinary r
    /\ (initial_slashes <> 0%nat -> n = 0%nat).

(** * Properties *)

(** ** The model on concrete inputs *)

Example split_ex : Str.split "/" "a//b/" = ["a"; ""; "b"; ""].
Proof. reflexivity. Qed.

Example splitlines_ex :
  Str.splitlines (String "a" (String Str.CR (String Str.LF (String Str.LF "b"))))
  = ["a"; ""; "b"].
Proof. reflexivity. Qed.

Example of_int_ex : Str.of_int 0 = "0" /\ Str.of_int 10 = "10" /\ Str.of_int (-5) = "-5".
Proof. repeat split. Qed.

Example strip_ex : Str.strip "  a b  " = "a b".
Proof. reflexivity. Qed.

Example normpath_ex :
  posixpath.normpath "a/../b" = "b" /\ posixpath.normpath "../x" = "../x"
  /\ posixpath.normpath "/../etc//./passwd" = "/etc/passwd"
  /\ posixpath.normpath "a/.." = "." /\ posixpath.normpath "//a/b/../.." = "//"
  /\ posixpath.normpath "..a" = "..a".
Proof. repeat split. Qed.

Example parents_ex : posixpath.parents "/a/b/c" = ["/"; "/a"; "/a/b"].
Proof. reflexivity. Qed.

Example expanduser_ex :
  posixpath.expanduser (Some "/home/u/") (fun _ => None) "~/x" = "/home/u/x"
  /\ posixpath.expanduser (Some "/") (fun _ => None) "~" = "/"
  /\ posixpath.expanduser None (fun _ => None) "~/x" = "~/x".
Proof. repeat split. Qed.

Example create_twice :
  let h := unix_host (Some "/work") (Some "/home/u") (completed 0 "" "") in
  let '(r1, w1) := create_directory_execute h "a/b" empty_world in
  let '(r2, w2) := create_directory_execute h "a/b" w1 in
  r1 = Returned "Successfully created directory: a/b"
  /\ r2 = Returned "Directory already exists: a/b"
  /\ fs w1 !! "/work/a/b" = Some Dir /\ fs w1 !! "/work" = Some Dir /\ w2 = w1.
Proof. vm_compute. repeat split. Qed.

Example ls_normalised_parent :
  let h := unix_host (Some "/work") None (completed 0 "x" "") in
  ls_execute h (Some "a/../b") empty_world
  = (Returned "x", {| fs := ∅; calls := [(["ls"; "-lA"; "b"], false)] |}).
Proof. reflexivity. Qed.

(** ** Lines: [splitlines] against [join] *)

Lemma cons_char_single_line c ls :
  Str.is_linebreak c = false ->
  Forall (fun l => single_line l = true) ls ->
  Forall (fun l => single_line l = true) (Str.cons_char c ls).
Proof.
  intros Hc Hls. destruct Hls as [|l ls Hl Hls]; simpl.
  - constructor; [|constructor]. unfold single_line; simpl. by rewrite Hc.
  - constructor; [|done]. unfold single_line in *; simpl. by rewrite Hc.
Qed.

(** Every line that [splitlines] returns is free of line boundaries. *)
Lemma splitlines_single_line s :
  Forall (fun l => single_line l = true) (Str.splitlines s).
Proof.
  remember (String.length s) as n eqn:Hn.
  revert s Hn. induction (lt_wf n) as [n _ IH]. intros s Hn.
  destruct s as [|c s]; [constructor|].
  simpl. destruct (Str.is_linebreak c) eqn:Hc.
  - destruct s as [|c2 s2].
    + by repeat constructor.
    + destruct (Ascii.eqb c Str.CR && Ascii.eqb c2 Str.LF).
      * constructor; [done|]. eapply (IH (String.length s2)); [|done].
        subst n. simpl. lia.
      * constructor; [done|]. eapply (IH (String.length (String c2 s2))); [|done].
        subst n. simpl. lia.
  - apply cons_char_single_line; [done|].
    eapply (IH (String.length s)); [|done]. subst n. simpl. lia.
Qed.

Lemma splitlines_one l :
  single_line l = true -> l <> "" -> Str.splitlines l = [l].
Proof.
  induction l as [|c l IH]; [done|]. intros Hl _.
  unfold single_line in Hl. simpl in Hl.
  apply andb_prop in Hl as [Hc Hl]. apply negb_true_iff in Hc.
  simpl. rewrite Hc. destruct l as [|c' l']; [done|].
  rewrite IH; done.
Qed.

Lemma splitlines_line_cons l rest :
  single_line l = true ->
  Str.splitlines (l +:+ String Str.LF rest) = l :: Str.splitlines rest.
Proof.
  induction l as [|c l IH]; intros Hl.
  - simpl. destruct rest; done.
  - unfold single_line in Hl. simpl in Hl.
    apply andb_prop in Hl as [Hc Hl]. apply negb_true_iff in Hc.
    change (String c l +:+ String Str.LF rest) with (String c (l +:+ String Str.LF rest)).
    cbn [Str.splitlines]. rewrite Hc, IH; done.
Qed.

(** Joining lines with a line feed and splitting again gives the lines
    back, as long as the last one is not empty. *)
Lemma splitlines_join ls :
  Forall (fun l => single_line l = true) ls ->
  last ls <> Some "" ->
  Str.splitlines (Str.join LINE_FEED ls) = ls.
Proof.
  induction ls as [|x ls IH]; [done|]. intros Hall Hlast.
  apply Forall_cons in Hall as [Hx Hls].
  destruct ls as [|y ls].
  - simpl. apply splitlines_one; [done|]. intros ->. by apply Hlast.
  - change (Str.join LINE_FEED (x :: y :: ls))
      with (x +:+ String Str.LF (Str.join LINE_FEED (y :: ls))).
    rewrite splitlines_line_cons by done. f_equal. apply IH; done.
Qed.

Lemma append_assoc (a b c : string) : (a +:+ b) +:+ c = a +:+ b +:+ c.
Proof.
  induction a as [|x a IH]; [done|].
  change (String x ((a +:+ b) +:+ c) = String x (a +:+ b +:+ c)).
  by rewrite IH.
Qed.

Lemma join_snoc sep ls x :
  ls <> [] ->
  Str.join sep ls +:+ sep +:+ x = Str.join sep (ls ++ [x]).
Proof.
  induction ls as [|a ls IH]; [done|]. intros _.
  destruct ls as [|b ls]; [done|].
  change (Str.join sep (a :: b :: ls)) with (a +:+ sep +:+ Str.join sep (b :: ls)).
  change (Str.join sep ((a :: b :: ls) ++ [x]))
    with (a +:+ sep +:+ Str.join sep ((b :: ls) ++ [x])).
  rewrite <- IH by done.
  rewrite !append_assoc. done.
Qed.

(** The truncation both tools apply, against [sanitized]. *)
Lemma truncation_sanitized n out :
  (0 < n)%nat ->
  sanitized n out
    (if (n <? length (Str.splitlines out))%nat
     then Str.join LINE_FEED (take n (Str.splitlines out))
          +:+ String Str.LF "... (output truncated)"
     else out).
Proof.
  intros Hn. unfold sanitized. cbv zeta. split.
  - intros Hlen. apply Nat.ltb_lt in Hlen as Hb. rewrite Hb.
    assert (Hne : take n (Str.splitlines out) <> []).
    { destruct n; [lia|]. destruct (Str.splitlines out); [simpl in Hlen; lia|done]. }
    assert (Heq : Str.join LINE_FEED (take n (Str.splitlines out))
                  +:+ String Str.LF "... (output truncated)"
                  = Str.join LINE_FEED (take n (Str.splitlines out) ++ [TRUNCATION_MARKER])).
    { rewrite <- join_snoc by done. done. }
    rewrite Heq. split; [done|].
    assert (Hsp : Str.splitlines
              (Str.join LINE_FEED (take n (Str.splitlines out) ++ [TRUNCATION_MARKER]))
            = take n (Str.splitlines out) ++ [TRUNCATION_MARKER]).
    { apply splitlines_join.
      - apply Forall_app. split.
        + apply Forall_take, splitlines_single_line.
        + by repeat constructor.
      - rewrite last_snoc. done. }
    split; [done|]. rewrite Hsp, length_app, length_take. simpl. lia.
  - intros Hlen. apply Nat.ltb_ge in Hlen. rewrite Hlen. done.
Qed.


(** ** Exceptions stop at a handler for [Exception] *)

Section Handlers.

Context {A : Type}.

Lemma dispatch_returns (handlers : list (exn_class * (exn -> M A))) e :
  Exists (fun ch => ch.1 = Exception) handlers ->
  Forall (fun ch => forall e', returns (ch.2 e')) handlers ->
  returns (dispatch handlers e).
Proof.
  induction handlers as [|[c handler] rest IH]; intros Hex Hall.
  - by apply Exists_nil in Hex.
  - apply Forall_cons in Hall as [Hhd Htl]. intros w. simpl.
    destruct (isinstance e c) eqn:Hc; [apply Hhd|].
    apply IH; [|done].
    apply Exists_cons in Hex as [Hex|Hex]; [|done].
    simpl in Hex. subst c. done.
Qed.

Lemma try_except_returns (body : M A) handlers :
  Exists (fun ch => ch.1 = Exception) handlers ->
  Forall (fun ch => forall e', returns (ch.2 e')) handlers ->
  returns (try_except body handlers).
Proof.
  intros Hex Hall w. unfold try_except.
  destruct (body w) as [[a|e] w']; [by eauto|].
  by apply dispatch_returns.
Qed.

Lemma mret_returns (a : A) : returns (mret a).
Proof. intros w. by exists a, w. Qed.

End Handlers.

Local Ltac handlers_return :=
  repeat first
    [ by apply Forall_nil
    | apply Forall_cons; split; [intros ?; simpl; try case_match; apply mret_returns|] ].

Lemma create_directory_returns h dir_path : returns (create_directory_execute h dir_path).
Proof.
  apply try_except_returns.
  - apply Exists_cons_tl, Exists_cons_hd. done.
  - handlers_return.
Qed.

Lemma ls_run_returns h target_path : returns (ls_run h target_path).
Proof.
  apply try_except_returns.
  - do 2 apply Exists_cons_tl. apply Exists_cons_hd. done.
  - handlers_return.
Qed.

Lemma ls_returns h path : returns (ls_execute h path).
Proof.
  unfold ls_execute. destruct (given path); [|apply ls_run_returns].
  case_match; [apply mret_returns | apply ls_run_returns].
Qed.

Lemma tree_returns h path depth : returns (tree_execute h path depth).
Proof.
  apply try_except_returns.
  - do 2 apply Exists_cons_tl. apply Exists_cons_hd. done.
  - handlers_return.
Qed.

(** C3. Each of the three entry points returns a string on every input, in
    every world and on every host: whatever is raised inside is handled by
    an [except Exception] clause, so nothing is raised to the caller. *)
Theorem tools_return_a_string (h : Host) (w : World) :
  (forall dir_path : string,
     exists s w', create_directory_execute h dir_path w = (Returned s, w'))
  /\ (forall path : option string,
        exists s w', ls_execute h path w = (Returned s, w'))
  /\ (forall (path : option string) (depth : option Z),
        exists s w', tree_execute h path depth w = (Returned s, w')).
Proof.
  split; [|split]; intros.
  - apply create_directory_returns.
  - apply ls_returns.
  - apply tree_returns.
Qed.

(** ** Path checks *)

Local Ltac unfold_monad :=
  unfold try_except, subprocess_run, path_exists, isdir, lift, raise,
    mbind, M_bind, mret, M_ret in *.

Lemma ls_execute_accepted h path w :
  ls_rejects h path = false ->
  ls_execute h path w = ls_run h (ls_target h path) w.
Proof.
  unfold ls_rejects, ls_execute, ls_target.
  destruct (given path); simpl; [|done]. by intros ->.
Qed.

Lemma ls_execute_rejected h path w :
  ls_rejects h path = true ->
  ls_execute h path w = (Returned (invalid_path_message (default "" path)), w).
Proof.
  unfold ls_rejects, ls_execute.
  destruct (given path); simpl; [|done]. by intros ->.
Qed.

Lemma create_directory_rejected h dir_path w :
  ".." ∈ Str.split (sep (os_path h)) dir_path ->
  create_directory_execute h dir_path w
  = (Returned (invalid_path_message dir_path), w).
Proof.
  intros Hin. unfold create_directory_execute. unfold_monad.
  rewrite bool_decide_eq_true_2 by done. done.
Qed.

(** Both listing tools launch exactly one command and leave the filesystem
    alone, whatever the command does. *)
Lemma ls_run_world h target_path w :
  (ls_run h target_path w).2
  = record_call (ls_command h target_path) (IS_WINDOWS h) w.
Proof.
  unfold ls_run. unfold_monad.
  destruct (run_outcome h _ _ w) as [process|[[] msg]]; simpl;
    repeat case_match; by simplify_eq.
Qed.

Lemma tree_world h path depth w :
  (tree_execute h path depth w).2
  = record_call (tree_command h path depth) (IS_WINDOWS h) w.
Proof.
  unfold tree_execute. unfold_monad.
  destruct (run_outcome h _ _ w) as [process|[[] msg]]; simpl;
    repeat case_match; by simplify_eq.
Qed.

(** On a POSIX host, normalisation never removes a leading parent segment
    of a relative path. *)
Lemma step_keeps_leading_parent acc c :
  exists acc', posixpath.normpath_step 0 (".." :: acc) c = ".." :: acc'.
Proof.
unfold posixpath.normpath_step.
destruct (String.eqb c "" || String.eqb c "."); [by eauto|].
destruct (String.eqb_spec c "..") as [->|_]; simpl; [|by eauto].
destruct acc as [|a acc]; [by eauto|].
case_match; by eauto.
Qed.

Lemma fold_keeps_leading_parent comps : forall acc,
  exists acc',
    fold_left (posixpath.normpath_step 0) comps (".." :: acc) = ".." :: acc'.
Proof.
induction comps as [|c comps IH]; intros acc; [by eauto|].
simpl. destruct (step_keeps_leading_parent acc c) as [acc' ->]. apply IH.
Qed.

Lemma split_cons_sep c a b :
  Str.split c (a +:+ String c b) = Str.split c a ++ Str.split c b.
Proof.
induction a as [|x a IH].
- change ("" +:+ String c b) with (String c b). simpl.
  by rewrite Ascii.eqb_refl.
- change (String x a +:+ String c b) with (String x (a +:+ String c b)).
  simpl. rewrite IH. destruct (Ascii.eqb x c); [done|].
  assert (Hne : Str.split c a <> []).
  { destruct a as [|y a]; [done|]. simpl.
    destruct (Ascii.eqb y c); [done|]. by destruct (Str.split c a). }
  by destruct (Str.split c a).
Qed.

Lemma normpath_leading_parent rest :
  Str.startswith (posixpath.normpath (".." +:+ String "/" rest)) ".." = true.
Proof.
unfold posixpath.normpath, posixpath.components.
change (String.eqb (".." +:+ String "/" rest) "") with false. cbv iota.
change (posixpath.initial_slashes (".." +:+ String "/" rest)) with 0%nat.
rewrite split_cons_sep.
change (Str.split "/" ".." ++ Str.split "/" rest) with (".." :: Str.split "/" rest).
cbn [fold_left].
change (posixpath.normpath_step 0 [] "..") with [".."].
destruct (fold_keeps_leading_parent (Str.split "/" rest) []) as [acc' ->].
change (posixpath.slashes 0 +:+ Str.join "/" (".." :: acc'))
  with (Str.join "/" (".." :: acc')).
unfold Str.startswith.
destruct acc' as [|a acc']; [reflexivity|].
change (Str.join "/" (".." :: a :: acc'))
  with (String "." (String "." (String "/" (Str.join "/" (a :: acc'))))).
reflexivity.
Qed.

(** C1 (as amended). On every host, a path with a [..] segment (split on the
    platform separator) makes [create_directory] return the invalid-path
    error with the world untouched: no directory made, no command launched.
    [ls] returns that error, with the world untouched, for every non-empty
    path whose normalised form starts with [..]; on a POSIX host these
    include every path [../<rest>]. *)
Theorem parent_paths_rejected (h : Host) (p : string) (w : World) :
  (".." ∈ Str.split (sep (os_path h)) p ->
     create_directory_execute h p w = (Returned (invalid_path_message p), w))
  /\ (Str.truthy p = true ->
      Str.startswith (normpath (os_path h) p) ".." = true ->
      ls_execute h (Some p) w = (Returned (invalid_path_message p), w))
  /\ (forall cwd home pw faults run,
        ls_execute (posix_host cwd home pw faults run)
          (Some (".." +:+ String "/" p)) w
        = (Returned (invalid_path_message (".." +:+ String "/" p)), w)).
Proof.
split; [|split].
- apply create_directory_rejected.
- intros Hp Hn. apply (ls_execute_rejected h (Some p)).
  unfold ls_rejects. simpl. by rewrite Hp, Hn.
- intros cwd home pw faults run.
  apply (ls_execute_rejected _ (Some (".." +:+ String "/" p))).
  unfold ls_rejects. apply andb_true_intro. split; [reflexivity|].
  apply normpath_leading_parent.
Qed.

Lemma parent_paths_rejected_witness :
  let h := unix_host (Some "/work") None (completed 0 "" "") in
  create_directory_execute h "a/../b" empty_world
    = (Returned (invalid_path_message "a/../b"), empty_world)
  /\ ls_execute h (Some "../b") empty_world
     = (Returned (invalid_path_message "../b"), empty_world).
Proof.
  intros h. split.
  - apply (proj1 (parent_paths_rejected h "a/../b" empty_world)).
    apply (bool_decide_eq_true_1 _). vm_compute. reflexivity.
  - apply (proj1 (proj2 (parent_paths_rejected h "../b" empty_world))); reflexivity.
Defined.

(** C1 fails for [ls]: [a/../b] has a [..] segment, yet [ls] normalises it to
    [b], launches the listing command and returns its output. *)
Lemma ls_lists_path_with_parent_segment :
  let h := unix_host (Some "/work") None (completed 0 "total 0" "") in
  ".." ∈ Str.split (sep (os_path h)) "a/../b"
  /\ ls_execute h (Some "a/../b") empty_world
     = (Returned "total 0", record_call ["ls"; "-lA"; "b"] false empty_world)
  /\ ls_execute h (Some "a/../b") empty_world
     <> (Returned (invalid_path_message "a/../b"), empty_world).
Proof.
  intros h. split; [apply (bool_decide_eq_true_1 _); vm_compute; reflexivity|].
  split; [reflexivity|].
  intros Heq. vm_compute in Heq. discriminate Heq.
Qed.

(** C2 (as amended). [tree] does not check its path: on every host and for
    every path, parent segments or not, it launches the tree command, and the
    last argument of that command is the path as given (or [.] when the path
    is empty). *)
Theorem tree_passes_path_unchecked (h : Host) (p : string) (depth : option Z)
    (w : World) :
  (tree_execute h (Some p) depth w).2
  = record_call (tree_command h (Some p) depth) (IS_WINDOWS h) w
  /\ last (tree_command h (Some p) depth)
     = Some (if Str.truthy p then p else ".").
Proof.
  split; [apply tree_world|].
  unfold tree_command, tree_target, given.
  destruct (IS_WINDOWS h), (Str.truthy p); done.
Qed.

(** C2 fails: for [../../etc] the tree command is launched on that path and
    its output is returned. *)
Lemma tree_runs_on_parent_path :
  let h := unix_host (Some "/work") None (completed 0 "../../etc" "") in
  ".." ∈ Str.split (sep (os_path h)) "../../etc"
  /\ tree_execute h (Some "../../etc") None empty_world
     = (Returned "../../etc",
        record_call ["tree"; "-L"; "3"; "../../etc"] false empty_world).
Proof.
  intros h. split; [apply (bool_decide_eq_true_1 _); vm_compute; reflexivity|].
  reflexivity.
Qed.

(** On a Windows-class host the depth is not passed on and the command goes
    through the shell. *)
Lemma tree_on_windows (op : OsPath) (outcome : result CompletedProcess)
    (p : string) (depth : option Z) (w : World) :
  calls (tree_execute (windows_host op outcome) (Some (String "." p)) depth w).2
  = calls w ++ [(["tree"; String "." p], true)].
Proof. by rewrite tree_world. Qed.

(** C5. On a Unix-class host the tree command is launched as
    [tree -L <limit> <target>], where the limit is [max(1, min(depth, 10))]
    for a given depth and 3 without one; it always lies between 1 and 10,
    depth 0 gives 1 and depth 999 gives 10. *)
Theorem tree_depth_clamped (h : Host) (path : option string) (w : World) :
  IS_WINDOWS h = false ->
  (forall depth : Z,
     calls (tree_execute h path (Some depth) w).2
     = calls w ++ [(["tree"; "-L"; Str.of_int (Z.max 1 (Z.min depth 10));
                     tree_target path], false)]
     /\ 1 <= tree_depth_limit (Some depth) <= 10)
  /\ calls (tree_execute h path None w).2
     = calls w ++ [(["tree"; "-L"; "3"; tree_target path], false)]
  /\ tree_command h path (Some 0) = ["tree"; "-L"; "1"; tree_target path]
  /\ tree_command h path (Some 999) = ["tree"; "-L"; "10"; tree_target path].
Proof.
  intros Hunix.
  assert (Hcmd : forall depth, tree_command h path depth
            = ["tree"; "-L"; Str.of_int (tree_depth_limit depth); tree_target path]).
  { intros depth. unfold tree_command. by rewrite Hunix. }
  split; [|split; [|split]].
  - intros depth. split.
    + rewrite tree_world, Hcmd, Hunix. done.
    + unfold tree_depth_limit, MAX_TREE_DEPTH. lia.
  - rewrite tree_world, Hcmd, Hunix. done.
  - by rewrite Hcmd.
  - by rewrite Hcmd.
Qed.

Lemma tree_depth_clamped_witness :
  let h := unix_host (Some "/work") None (completed 0 "." "") in
  calls (tree_execute h (Some "src") (Some 999) empty_world).2
  = [(["tree"; "-L"; "10"; "src"], false)].
Proof.
  intros h.
  exact (proj1 (proj1 (tree_depth_clamped h (Some "src") empty_world eq_refl) 999)).
Defined.

(** ** Results of the listing tools *)

Lemma ls_run_completed h target_path w process :
  run_outcome h (ls_command h target_path) (IS_WINDOWS h) w = Returned process ->
  (ls_run h target_path w).1
  = Returned
      (if returncode process =? 0 then
         if (100 <? length (Str.splitlines (Str.strip (stdout process))))%nat
         then Str.join LINE_FEED (take 100 (Str.splitlines (Str.strip (stdout process))))
              +:+ String Str.LF "... (output truncated)"
         else Str.strip (stdout process)
       else if names_missing_path (stderr process)
       then "Error: Directory not found: '" +:+ target_path +:+ "'"
       else "Error executing directory listing command (Code: "
            +:+ Str.of_int (returncode process) +:+ "): "
            +:+ (if Str.truthy (stderr process) then Str.strip (stderr process)
                 else "(No stderr)")).
Proof.
  intros Hrun. unfold ls_run, names_missing_path. unfold_monad. rewrite Hrun.
  repeat case_match; by simplify_eq.
Qed.

Lemma tree_completed h path depth w process :
  run_outcome h (tree_command h path depth) (IS_WINDOWS h) w = Returned process ->
  (tree_execute h path depth w).1
  = Returned
      (if returncode process =? 0 then
         if (200 <? length (Str.splitlines (Str.strip (stdout process))))%nat
         then Str.join LINE_FEED (take 200 (Str.splitlines (Str.strip (stdout process))))
              +:+ String Str.LF "... (output truncated)"
         else Str.strip (stdout process)
       else if (returncode process =? 127)
               || Str.contains "command not found" (Str.lower (stderr process))
       then "Error: 'tree' command not found. Please ensure it is installed and in the system's PATH."
       else "Error executing tree command (Code: "
            +:+ Str.of_int (returncode process) +:+ "): "
            +:+ (if Str.truthy (stderr process) then Str.strip (stderr process)
                 else "(No stderr)")).
Proof.
  intros Hrun. unfold tree_execute. unfold_monad. rewrite Hrun.
  repeat case_match; by simplify_eq.
Qed.

(** C4. When the command exits with status 0, [ls] and [tree] return its
    standard output stripped of surrounding whitespace and cut to 100 resp.
    200 lines: over the budget, the result is the first 100 (200) lines
    followed by the single line [... (output truncated)]; at or under the
    budget it is the stripped output itself. *)
Theorem output_cut_to_budget (h : Host) (w : World) (process : CompletedProcess) :
  returncode process = 0 ->
  (forall path : option string,
     ls_rejects h path = false ->
     run_outcome h (ls_command h (ls_target h path)) (IS_WINDOWS h) w
       = Returned process ->
     exists r, (ls_execute h path w).1 = Returned r
               /\ sanitized 100 (Str.strip (stdout process)) r)
  /\ (forall (path : option string) (depth : option Z),
        run_outcome h (tree_command h path depth) (IS_WINDOWS h) w
          = Returned process ->
        exists r, (tree_execute h path depth w).1 = Returned r
                  /\ sanitized 200 (Str.strip (stdout process)) r).
Proof.
  intros Hrc. split.
  - intros path Hok Hrun. rewrite ls_execute_accepted by done.
    rewrite (ls_run_completed _ _ _ _ Hrun), Hrc. simpl (0 =? 0).
    eexists. split; [reflexivity|]. apply truncation_sanitized. lia.
  - intros path depth Hrun.
    rewrite (tree_completed _ _ _ _ _ Hrun), Hrc. simpl (0 =? 0).
    eexists. split; [reflexivity|]. apply truncation_sanitized. lia.
Qed.

(** C6 (as amended). After a non-zero exit whose standard error contains
    [no such file or directory] or [cannot find the path] in any letter case,
    [ls] returns [Error: Directory not found: '<target>'] for the path it
    listed.  [tree] has no such case: after a non-zero exit it returns the
    command-not-found message when the status is 127 or standard error
    contains [command not found], and the generic message otherwise. *)
Theorem missing_directory_reported (h : Host) (w : World) (process : CompletedProcess) :
  returncode process <> 0 ->
  (forall path : option string,
     ls_rejects h path = false ->
     run_outcome h (ls_command h (ls_target h path)) (IS_WINDOWS h) w
       = Returned process ->
     names_missing_path (stderr process) = true ->
     (ls_execute h path w).1
     = Returned ("Error: Directory not found: '" +:+ ls_target h path +:+ "'"))
  /\ (forall (path : option string) (depth : option Z),
        run_outcome h (tree_command h path depth) (IS_WINDOWS h) w
          = Returned process ->
        (tree_execute h path depth w).1
        = Returned
            (if (returncode process =? 127)
                || Str.contains "command not found" (Str.lower (stderr process))
             then "Error: 'tree' command not found. Please ensure it is installed and in the system's PATH."
             else "Error executing tree command (Code: "
                  +:+ Str.of_int (returncode process) +:+ "): "
                  +:+ (if Str.truthy (stderr process)
                       then Str.strip (stderr process) else "(No stderr)"))).
Proof.
  intros Hrc. apply Z.eqb_neq in Hrc. split.
  - intros path Hok Hrun Hmiss. rewrite ls_execute_accepted by done.
    by rewrite (ls_run_completed _ _ _ _ Hrun), Hrc, Hmiss.
  - intros path depth Hrun.
    by rewrite (tree_completed _ _ _ _ _ Hrun), Hrc.
Qed.

Lemma output_cut_to_budget_witness :
  let process := {| returncode := 0; stdout := " a b "; stderr := "" |} in
  let h := unix_host (Some "/work") None (Returned process) in
  (exists r, (ls_execute h (Some "src") empty_world).1 = Returned r
             /\ sanitized 100 "a b" r)
  /\ (exists r, (tree_execute h (Some "src") (Some 2) empty_world).1 = Returned r
                /\ sanitized 200 "a b" r).
Proof.
  intros process h.
  pose proof (output_cut_to_budget h empty_world process eq_refl) as [Hls Htree].
  split.
  - apply (Hls (Some "src")); reflexivity.
  - apply (Htree (Some "src") (Some 2)); reflexivity.
Defined.

(** A listing of 150 lines comes back as 100 lines and the marker. *)
Example ls_truncates_150_lines :
  let out := Str.join LINE_FEED (replicate 150 "entry") in
  let h := unix_host (Some "/work") None (completed 0 out "") in
  exists r, (ls_execute h None empty_world).1 = Returned r
            /\ Str.splitlines r = replicate 100 "entry" ++ [TRUNCATION_MARKER].
Proof. eexists. split; [vm_compute; reflexivity|]. vm_compute. reflexivity. Qed.

Lemma missing_directory_reported_witness :
  let process := {| returncode := 2; stdout := "";
                    stderr := "ls: cannot access 'a/nope': No such file or directory" |} in
  let h := unix_host (Some "/work") None (Returned process) in
  (ls_execute h (Some "a/./nope") empty_world).1
  = Returned "Error: Directory not found: 'a/nope'".
Proof.
  intros process h.
  assert (Hrc : returncode process <> 0) by (simpl; lia).
  apply (proj1 (missing_directory_reported h empty_world process Hrc) (Some "a/./nope"));
    reflexivity.
Defined.

(** C6 fails for [tree]: with the same failed process, whose standard error
    says [No such file or directory], [tree] returns the generic message, not
    the directory-not-found one. *)
Lemma tree_reports_missing_directory_generically :
  let process := {| returncode := 2; stdout := "";
                    stderr := "tree: nope: No such file or directory" |} in
  let h := unix_host (Some "/work") None (Returned process) in
  returncode process <> 0
  /\ names_missing_path (stderr process) = true
  /\ (tree_execute h (Some "nope") None empty_world).1
     = Returned "Error executing tree command (Code: 2): tree: nope: No such file or directory"
  /\ (tree_execute h (Some "nope") None empty_world).1
     <> Returned "Error: Directory not found: 'nope'".
Proof.
  intros process h. split; [simpl; lia|]. split; [reflexivity|].
  split; [reflexivity|]. intros Heq. vm_compute in Heq. discriminate Heq.
Qed.

(** ** Failure messages *)

Lemma create_directory_cases h dir_path w :
  exists r w',
    create_directory_execute h dir_path w = (Returned r, w')
    /\ (r = "Directory already exists: " +:+ dir_path
        \/ r = "Successfully created directory: " +:+ dir_path
        \/ r = invalid_path_message dir_path
        \/ r = "Error: Path exists but is not a directory: " +:+ dir_path
        \/ exists e, r = "Error creating directory: " +:+ exn_str e).
Proof.
  unfold create_directory_execute. unfold_monad.
  case_bool_decide; [by eauto 10|].
  destruct (abspath _ _) as [target|e]; simpl.
  - repeat case_bool_decide; try by eauto 10.
    destruct (makedirs h target w) as [[[]|e] w']; [by eauto 10|].
    simpl. case_match; eauto 10.
  - case_match; eauto 10.
Qed.

Lemma create_directory_unresolved h dir_path e w :
  ".." ∉ Str.split (sep (os_path h)) dir_path ->
  abspath (os_path h) (expanduser (os_path h) dir_path) = Raised e ->
  create_directory_execute h dir_path w
  = (Returned ("Error creating directory: " +:+ exn_str e), w).
Proof.
  intros Hok Hraise. unfold create_directory_execute. unfold_monad.
  rewrite bool_decide_eq_false_2 by done. rewrite Hraise. simpl.
  by case_match.
Qed.

Lemma ls_run_raised h target_path w e :
  run_outcome h (ls_command h target_path) (IS_WINDOWS h) w = Raised e ->
  (ls_run h target_path w).1
  = Returned
      (if isinstance e FileNotFoundError then
         "Error: '" +:+ (if IS_WINDOWS h then "dir" else "ls")
         +:+ "' command not found. Please ensure it is installed and in the system's PATH."
       else if isinstance e TimeoutExpired then
         "Error: Directory listing timed out for path '" +:+ target_path +:+ "'."
       else "An unexpected error occurred while executing directory listing: "
            +:+ exn_str e).
Proof.
  intros Hrun. unfold ls_run. unfold_monad. rewrite Hrun. simpl.
  repeat case_match; by simplify_eq.
Qed.

Lemma tree_raised h path depth w e :
  run_outcome h (tree_command h path depth) (IS_WINDOWS h) w = Raised e ->
  (tree_execute h path depth w).1
  = Returned
      (if isinstance e FileNotFoundError then
         if IS_WINDOWS h
         then "Error: 'tree' command not found. This is a built-in Windows command, so this may indicate a system issue."
         else "Error: 'tree' command not found. Please install it using your package manager (e.g., 'apt-get install tree' on Debian/Ubuntu)."
       else if isinstance e TimeoutExpired then
         "Error: Tree command timed out for path '" +:+ tree_target path
         +:+ "'. The directory might be too large or complex."
       else "An unexpected error occurred while executing tree: " +:+ exn_str e).
Proof.
  intros Hrun. unfold tree_execute. unfold_monad. rewrite Hrun. simpl.
  repeat case_match; by simplify_eq.
Qed.

(** C7 (as amended). Every result of [create_directory] other than its two
    success messages begins with [Error], and an exception raised while
    resolving or creating the path becomes [Error creating directory:
    <message>].  For [ls] and [tree], a refused path, a non-zero exit, a
    missing executable and a timeout all give a string that begins with
    [Error]; any other exception [e] gives [An unexpected error occurred
    while executing directory listing: <message>] (for [tree]: [... while
    executing tree: <message>]). *)
Theorem failure_messages (h : Host) (w : World) :
  (forall dir_path : string, exists r w',
     create_directory_execute h dir_path w = (Returned r, w')
     /\ (r = "Directory already exists: " +:+ dir_path
         \/ r = "Successfully created directory: " +:+ dir_path
         \/ Str.startswith r "Error" = true))
  /\ (forall (dir_path : string) (e : exn),
        ".." ∉ Str.split (sep (os_path h)) dir_path ->
        abspath (os_path h) (expanduser (os_path h) dir_path) = Raised e ->
        create_directory_execute h dir_path w
        = (Returned ("Error creating directory: " +:+ exn_str e), w))
  /\ (forall (dir_path target : string) (e : exn) (w' : World),
        ".." ∉ Str.split (sep (os_path h)) dir_path ->
        abspath (os_path h) (expanduser (os_path h) dir_path) = Returned target ->
        fs w !! target = None ->
        makedirs h target w = (Raised e, w') ->
        create_directory_execute h dir_path w
        = (Returned ("Error creating directory: " +:+ exn_str e), w'))
  /\ (forall path : option string,
        ls_rejects h path = true ->
        exists r, (ls_execute h path w).1 = Returned r
                  /\ Str.startswith r "Error" = true)
  /\ (forall path : option string,
        ls_rejects h path = false ->
        let o := run_outcome h (ls_command h (ls_target h path)) (IS_WINDOWS h) w in
        failed_run o = true ->
        exists r, (ls_execute h path w).1 = Returned r
          /\ match unexpected o with
             | Some e =>
                 r = "An unexpected error occurred while executing directory listing: "
                     +:+ exn_str e
             | None => Str.startswith r "Error" = true
             end)
  /\ (forall (path : option string) (depth : option Z),
        let o := run_outcome h (tree_command h path depth) (IS_WINDOWS h) w in
        failed_run o = true ->
        exists r, (tree_execute h path depth w).1 = Returned r
          /\ match unexpected o with
             | Some e =>
                 r = "An unexpected error occurred while executing tree: "
                     +:+ exn_str e
             | None => Str.startswith r "Error" = true
             end).
Proof.
  repeat apply conj.
  - intros dir_path.
    destruct (create_directory_cases h dir_path w)
      as (r & w' & Heq & [->|[->|[->|[->|[e ->]]]]]);
      eexists _, w'; (split; [exact Heq|]); auto.
  - intros dir_path e. apply create_directory_unresolved.
  - intros dir_path target e w' Hok Hres Hnone Hmk.
    unfold create_directory_execute. unfold_monad.
    rewrite bool_decide_eq_false_2 by done. rewrite Hres. simpl.
    rewrite bool_decide_eq_false_2 by (rewrite Hnone; by intros [? ?]).
    rewrite Hmk. simpl. by case_match.
  - intros path Hrej. rewrite ls_execute_rejected by done. by eexists.
  - intros path Hok o Hfail. rewrite ls_execute_accepted by done.
    destruct o as [process|e] eqn:Ho; subst o.
    + rewrite (ls_run_completed _ _ _ _ Ho). simpl in Hfail.
      apply negb_true_iff in Hfail. rewrite Hfail.
      eexists. split; [reflexivity|]. cbn [unexpected]. case_match; reflexivity.
    + rewrite (ls_run_raised _ _ _ _ Ho).
      eexists. split; [reflexivity|]. cbn [unexpected].
      destruct (isinstance e FileNotFoundError); cbn [orb];
        [destruct (IS_WINDOWS h); reflexivity|].
      destruct (isinstance e TimeoutExpired); reflexivity.
  - intros path depth o Hfail.
    destruct o as [process|e] eqn:Ho; subst o.
    + rewrite (tree_completed _ _ _ _ _ Ho). simpl in Hfail.
      apply negb_true_iff in Hfail. rewrite Hfail.
      eexists. split; [reflexivity|]. cbn [unexpected]. case_match; reflexivity.
    + rewrite (tree_raised _ _ _ _ _ Ho).
      eexists. split; [reflexivity|]. cbn [unexpected].
      destruct (isinstance e FileNotFoundError); cbn [orb];
        [destruct (IS_WINDOWS h); reflexivity|].
      destruct (isinstance e TimeoutExpired); reflexivity.
Qed.

Lemma failure_messages_witness :
  let e := mk_exn ValueError "embedded null byte" in
  let h := unix_host (Some "/work") None (Raised e) in
  let h' := unix_host None None (completed 0 "" "") in
  (exists r, (ls_execute h (Some "src") empty_world).1 = Returned r
     /\ r = "An unexpected error occurred while executing directory listing: embedded null byte")
  /\ (exists r, (tree_execute h None None empty_world).1 = Returned r
        /\ r = "An unexpected error occurred while executing tree: embedded null byte")
  /\ (exists r, (ls_execute h (Some "../x") empty_world).1 = Returned r
        /\ Str.startswith r "Error" = true)
  /\ create_directory_execute h' "a" empty_world
     = (Returned "Error creating directory: [Errno 2] No such file or directory",
        empty_world).
Proof.
  intros e h h'.
  destruct (failure_messages h empty_world) as (_ & _ & _ & Hrej & Hls & Htree).
  destruct (failure_messages h' empty_world) as (_ & Hres & _).
  split; [|split; [|split]].
  - exact (Hls (Some "src") eq_refl eq_refl).
  - exact (Htree None None eq_refl).
  - exact (Hrej (Some "../x") eq_refl).
  - apply (Hres "a" (mk_exn FileNotFoundError "[Errno 2] No such file or directory"));
      [|reflexivity].
    intros Hin. apply (bool_decide_eq_true_2 _) in Hin. vm_compute in Hin.
    discriminate Hin.
Defined.

(** C7 fails: when running the command raises an exception other than a
    missing executable or a timeout (here [ValueError] for a path with a NUL
    character), [ls] and [tree] return a message that does not begin with
    [Error] and is not of the form [Error: <operation> failed: <message>]. *)
Lemma unexpected_error_message_has_no_error_prefix :
  let p := String "a" (String "000" "") in
  let h := unix_host (Some "/work") None
             (Raised (mk_exn ValueError "embedded null byte")) in
  (ls_execute h (Some p) empty_world).1
    = Returned "An unexpected error occurred while executing directory listing: embedded null byte"
  /\ (tree_execute h (Some p) None empty_world).1
     = Returned "An unexpected error occurred while executing tree: embedded null byte"
  /\ Str.startswith
       "An unexpected error occurred while executing directory listing: embedded null byte"
       "Error" = false
  /\ Str.startswith
       "An unexpected error occurred while executing tree: embedded null byte"
       "Error" = false.
Proof. repeat split. Qed.

(** ** Creating directories *)

Lemma mkdir_leaf_ok h parent name w w' :
  try_except (mkdir h parent name)
    [ (OSError, fun e => d ← isdir name; if d : bool then mret tt else raise e) ] w
  = (Returned tt, w') ->
  fs w' !! name = Some Dir.
Proof.
  unfold mkdir. unfold_monad. intros Hrun.
  repeat case_match; simplify_eq/=;
    repeat case_match; simplify_eq/=;
    first [ by apply lookup_insert_eq | by case_bool_decide ].
Qed.

Lemma makedirs_from_ok h chain : forall parent name w w',
  makedirs_from h parent chain name w = (Returned tt, w') ->
  fs w' !! name = Some Dir.
Proof.
  induction chain as [|a chain IH]; intros parent name w w' Hrun.
  - by eapply mkdir_leaf_ok.
  - cbn [makedirs_from] in Hrun. unfold mbind, M_bind at 1 in Hrun.
    destruct (path_exists a w) as [[ex|e] w1]; [|done].
    unfold mbind, M_bind at 1 in Hrun.
    destruct ex.
    + unfold mret, M_ret in Hrun. by eapply IH.
    + destruct (try_except _ _ w1) as [[[]|e] w2]; [|done]. by eapply IH.
Qed.

(** A successful [os.makedirs] leaves a directory at the given path. *)
Lemma makedirs_ok h name w w' :
  makedirs h name w = (Returned tt, w') -> fs w' !! name = Some Dir.
Proof. apply makedirs_from_ok. Qed.

(** What [create_directory] does with a path that passes the check and
    resolves to [target]. *)
Lemma create_directory_resolved h dir_path target w :
  ".." ∉ Str.split (sep (os_path h)) dir_path ->
  abspath (os_path h) (expanduser (os_path h) dir_path) = Returned target ->
  create_directory_execute h dir_path w
  = match fs w !! target with
    | Some Dir => (Returned ("Directory already exists: " +:+ dir_path), w)
    | Some File =>
        (Returned ("Error: Path exists but is not a directory: " +:+ dir_path), w)
    | None =>
        match makedirs h target w with
        | (Returned _, w') =>
            (Returned ("Successfully created directory: " +:+ dir_path), w')
        | (Raised e, w') =>
            (Returned ("Error creating directory: " +:+ exn_str e), w')
        end
    end.
Proof.
  intros Hok Hres. unfold create_directory_execute. unfold_monad.
  rewrite bool_decide_eq_false_2 by done. rewrite Hres. simpl.
  destruct (fs w !! target) as [[]|] eqn:Hfs.
  - rewrite bool_decide_eq_true_2 by eauto.
    by rewrite (bool_decide_eq_true_2 _ Hfs).
  - rewrite bool_decide_eq_true_2 by eauto.
    rewrite bool_decide_eq_false_2; [done|]. by rewrite Hfs.
  - rewrite bool_decide_eq_false_2 by (by intros [? ?]).
    destruct (makedirs h target w) as [[[]|e] w']; [done|]. simpl. by case_match.
Qed.

(** A success message can only come from a fresh, successful [makedirs]. *)
Lemma create_directory_success_inv h dir_path w w' :
  create_directory_execute h dir_path w
  = (Returned ("Successfully created directory: " +:+ dir_path), w') ->
  (".." ∉ Str.split (sep (os_path h)) dir_path)
  /\ exists target,
       abspath (os_path h) (expanduser (os_path h) dir_path) = Returned target
       /\ fs w !! target = None
       /\ makedirs h target w = (Returned tt, w').
Proof.
  intros Hrun.
  destruct (decide (".." ∈ Str.split (sep (os_path h)) dir_path)) as [Hin|Hok].
  { rewrite create_directory_rejected in Hrun by done.
    unfold invalid_path_message in Hrun. by simplify_eq. }
  split; [done|].
  destruct (abspath (os_path h) (expanduser (os_path h) dir_path)) as [target|e] eqn:Hres.
  - exists target. split; [done|].
    rewrite (create_directory_resolved _ _ _ _ Hok Hres) in Hrun.
    destruct (fs w !! target) as [[]|]; [by simplify_eq..|].
    destruct (makedirs h target w) as [[[]|e] w1]; by simplify_eq.
  - rewrite (create_directory_unresolved _ _ _ _ Hok Hres) in Hrun.
    by simplify_eq.
Qed.

(** C8. After [create_directory] has reported a successful creation, the
    same call in the resulting world returns [Directory already exists:
    <path>], which is not an error message, and leaves that world as it
    is. *)
Theorem create_directory_idempotent (h : Host) (dir_path : string) (w w' : World) :
  create_directory_execute h dir_path w
    = (Returned ("Successfully created directory: " +:+ dir_path), w') ->
  create_directory_execute h dir_path w'
    = (Returned ("Directory already exists: " +:+ dir_path), w')
  /\ Str.startswith ("Directory already exists: " +:+ dir_path) "Error" = false.
Proof.
  intros Hfirst. split; [|reflexivity].
  apply create_directory_success_inv in Hfirst as (Hok & target & Hres & _ & Hmk).
  rewrite (create_directory_resolved _ _ _ _ Hok Hres).
  by rewrite (makedirs_ok _ _ _ _ Hmk).
Qed.

Lemma create_directory_idempotent_witness :
  let h := unix_host (Some "/work") (Some "/home/u") (completed 0 "" "") in
  exists w',
    create_directory_execute h "a/b" sample_world
      = (Returned "Successfully created directory: a/b", w')
    /\ fs w' !! "/work/a/b" = Some Dir
    /\ create_directory_execute h "a/b" w'
       = (Returned "Directory already exists: a/b", w').
Proof.
  intros h.
  destruct (create_directory_execute h "a/b" sample_world) as [r w'] eqn:Hrun.
  assert (Hr : r = Returned "Successfully created directory: a/b").
  { apply (f_equal fst) in Hrun. vm_compute in Hrun. by symmetry. }
  subst r. exists w'. split; [reflexivity|]. split.
  - apply (f_equal (fun x => fs x.2 !! "/work/a/b")) in Hrun.
    vm_compute in Hrun. by symmetry.
  - exact (proj1 (create_directory_idempotent h "a/b" sample_world w' Hrun)).
Defined.

(** C9. When the path passes the parent-segment check and resolves to an
    entry that exists and is not a directory, [create_directory] returns
    [Error: Path exists but is not a directory: <path>] and the world after
    the call is the world before it. *)
Theorem existing_file_left_alone (h : Host) (dir_path target : string) (w : World) :
  ".." ∉ Str.split (sep (os_path h)) dir_path ->
  abspath (os_path h) (expanduser (os_path h) dir_path) = Returned target ->
  fs w !! target = Some File ->
  create_directory_execute h dir_path w
  = (Returned ("Error: Path exists but is not a directory: " +:+ dir_path), w).
Proof.
  intros Hok Hres Hfile.
  by rewrite (create_directory_resolved _ _ _ _ Hok Hres), Hfile.
Qed.

Lemma existing_file_left_alone_witness :
  let h := unix_host (Some "/work") (Some "/home/u") (completed 0 "" "") in
  create_directory_execute h "notes" sample_world
  = (Returned "Error: Path exists but is not a directory: notes", sample_world).
Proof.
  intros h. apply (existing_file_left_alone h "notes" "/work/notes" sample_world).
  - intros Hin. apply (bool_decide_eq_true_2 _) in Hin. vm_compute in Hin.
    discriminate Hin.
  - reflexivity.
  - vm_compute. reflexivity.
Defined.

(** ** Home expansion on a POSIX host *)

Lemma append_nil_r (s : string) : s +:+ "" = s.
Proof.
induction s as [|c s IH]; [done|].
change (String c (s +:+ "") = String c s). by rewrite IH.
Qed.

Lemma startswith_slash s :
  Str.startswith s "/" = true -> exists s', s = String "/" s'.
Proof.
unfold Str.startswith. destruct s as [|c s]; cbn [String.prefix]; [done|].
destruct (ascii_dec "/" c) as [<-|]; [by eauto|done].
Qed.

Lemma startswith_slash_cons s : Str.startswith (String "/" s) "/" = true.
Proof. unfold Str.startswith. cbn. by destruct s. Qed.

Lemma split_not_nil c s : Str.split c s <> [].
Proof.
destruct s as [|x s]; [done|]. simpl.
destruct (Ascii.eqb x c); [done|]. by destruct (Str.split c s).
Qed.

Lemma rstrip_by_decompose p s :
  exists t, s = Str.rstrip_by p s +:+ t /\ all_chars p t = true.
Proof.
induction s as [|c s (t & Hs & Ht)]; [by exists ""|].
simpl. destruct (Str.rstrip_by p s) as [|c' r] eqn:Hr.
- change ("" +:+ t) with t in Hs. subst t.
  destruct (p c) eqn:Hc.
  + exists (String c s). split; [done|]. simpl. by rewrite Hc.
  + by exists s.
- exists t. split; [|done]. rewrite Hs at 1. done.
Qed.

Lemma rstrip_by_head p c s :
  Str.rstrip_by p (String c s) = ""
  \/ exists r, Str.rstrip_by p (String c s) = String c r.
Proof.
simpl. destruct (Str.rstrip_by p s); [destruct (p c)|]; eauto.
Qed.

Lemma split_all_seps c t :
  all_chars (Ascii.eqb c) t = true ->
  Str.split c t = replicate (S (String.length t)) "".
Proof.
induction t as [|x t IH]; [done|]. simpl. intros [Hx Ht]%andb_prop.
rewrite Ascii.eqb_sym in Hx. rewrite Hx. by rewrite IH.
Qed.

Lemma split_trailing_seps c u t :
  all_chars (Ascii.eqb c) t = true ->
  Str.split c (u +:+ t) = Str.split c u ++ replicate (String.length t) "".
Proof.
destruct t as [|x t]; intros Hall.
- by rewrite append_nil_r, app_nil_r.
- simpl in Hall. apply andb_prop in Hall as [Hx Ht].
  apply Ascii.eqb_eq in Hx. subst x.
  rewrite split_cons_sep, (split_all_seps c t) by done. reflexivity.
Qed.

Lemma fold_step_empties k n acc :
  fold_left (posixpath.normpath_step k) (replicate n "") acc = acc.
Proof.
induction n as [|n IH]; [done|]. cbn [replicate fold_left].
change (posixpath.normpath_step k acc "") with acc. exact IH.
Qed.

(** Without parent segments, [normpath] only appends what it keeps. *)
Lemma fold_step_no_parent k comps : forall acc,
  ".." ∉ comps ->
  fold_left (posixpath.normpath_step k) comps acc
  = acc ++ filter (fun c => c <> "" /\ c <> ".") comps.
Proof.
induction comps as [|c comps IH]; intros acc Hno.
- by rewrite app_nil_r.
- apply not_elem_of_cons in Hno as [Hc Hno]. simpl. rewrite IH by done.
  unfold posixpath.normpath_step.
  destruct (String.eqb_spec c "") as [->|Hc1]; simpl.
  { rewrite filter_cons_False; [done|]. by intros []. }
  destruct (String.eqb_spec c ".") as [->|Hc2]; simpl.
  { rewrite filter_cons_False; [done|]. by intros []. }
  destruct (String.eqb_spec c "..") as [->|_]; [done|]. simpl.
  rewrite filter_cons_True by done. by rewrite <- app_assoc.
Qed.

Lemma step_slashes k1 k2 acc c :
  k1 <> 0%nat -> k2 <> 0%nat ->
  posixpath.normpath_step k1 acc c = posixpath.normpath_step k2 acc c.
Proof.
intros H1 H2. unfold posixpath.normpath_step.
apply Nat.eqb_neq in H1, H2. by rewrite H1, H2.
Qed.

Lemma fold_step_slashes k1 k2 comps : forall acc,
  k1 <> 0%nat -> k2 <> 0%nat ->
  fold_left (posixpath.normpath_step k1) comps acc
  = fold_left (posixpath.normpath_step k2) comps acc.
Proof.
induction comps as [|c comps IH]; intros acc H1 H2; [done|].
simpl. rewrite (step_slashes k1 k2) by done. by apply IH.
Qed.

Lemma initial_slashes_absolute s :
  Str.startswith s "/" = true -> posixpath.initial_slashes s <> 0%nat.
Proof.
intros Hs. unfold posixpath.initial_slashes. rewrite Hs. by case_match.
Qed.

Lemma append_not_empty a c b : String.eqb (a +:+ String c b) "" = false.
Proof. by destruct a. Qed.

Lemma expanduser_tilde hm pw rest :
  rest = "" \/ Str.startswith rest "/" = true ->
  posixpath.expanduser (Some hm) pw ("~" +:+ rest)
  = (if String.eqb (Str.rstrip_by (Ascii.eqb "/") hm +:+ rest) ""
     then "/" else Str.rstrip_by (Ascii.eqb "/") hm +:+ rest).
Proof.
intros [->|[r ->]%startswith_slash]; reflexivity.
Qed.

(** The components of an absolute home directory do not depend on its
    trailing slashes. *)
Lemma components_rstrip hm :
  Str.startswith hm "/" = true ->
  posixpath.components hm
  = fold_left (posixpath.normpath_step 1)
      (Str.split "/" (Str.rstrip_by (Ascii.eqb "/") hm)) [].
Proof.
intros Habs. unfold posixpath.components.
rewrite (fold_step_slashes _ 1) by (by try apply initial_slashes_absolute).
destruct (rstrip_by_decompose (Ascii.eqb "/") hm) as (t & Hhm & Ht).
rewrite Hhm at 1. rewrite split_trailing_seps by done.
by rewrite fold_left_app, fold_step_empties.
Qed.

Lemma expanded_components hm pw rest :
  Str.startswith hm "/" = true ->
  rest = "" \/ Str.startswith rest "/" = true ->
  ".." ∉ Str.split "/" rest ->
  let expanded := posixpath.expanduser (Some hm) pw ("~" +:+ rest) in
  Str.startswith expanded "/" = true
  /\ posixpath.components expanded
     = posixpath.components hm ++ own_components rest.
Proof.
intros Habs Hrest Hno expanded. subst expanded.
rewrite expanduser_tilde by done. rewrite (components_rstrip hm Habs).
destruct (startswith_slash _ Habs) as [hm' ->].
set (u := Str.rstrip_by (Ascii.eqb "/") (String "/" hm')).
assert (Hu : u = "" \/ exists r, u = String "/" r) by apply rstrip_by_head.
destruct Hrest as [->|[r' ->]%startswith_slash].
- rewrite append_nil_r. unfold own_components. simpl (filter _ _).
  rewrite app_nil_r. destruct Hu as [->|[r Hr]]; [done|].
  rewrite Hr. split; [apply startswith_slash_cons|]. unfold posixpath.components.
  change (String.eqb (String "/" r) "") with false. cbv iota.
  apply fold_step_slashes; [|done].
  apply initial_slashes_absolute, startswith_slash_cons.
- rewrite append_not_empty. split.
  { destruct Hu as [->|[r ->]]; apply startswith_slash_cons. }
  unfold posixpath.components. rewrite split_cons_sep, fold_left_app.
  assert (Hk : posixpath.initial_slashes (u +:+ String "/" r') <> 0%nat).
  { apply initial_slashes_absolute.
    destruct Hu as [->|[r ->]]; apply startswith_slash_cons. }
  rewrite (fold_step_slashes _ 1 (Str.split "/" u)) by done.
  change (Str.split "/" (String "/" r')) with ("" :: Str.split "/" r') in Hno.
  apply not_elem_of_cons in Hno as [_ Hno].
  rewrite fold_step_no_parent by done. reflexivity.
Qed.

Lemma normpath_absolute s :
  Str.startswith s "/" = true ->
  posixpath.normpath s
  = posixpath.slashes (posixpath.initial_slashes s)
    +:+ Str.join "/" (posixpath.components s).
Proof.
intros Habs. pose proof (initial_slashes_absolute s Habs) as Hk.
destruct (startswith_slash _ Habs) as [s' ->].
unfold posixpath.normpath.
change (String.eqb (String "/" s') "") with false. cbv iota.
destruct (posixpath.initial_slashes (String "/" s')); done.
Qed.


(** C10. On a POSIX host whose user has an absolute home directory, a path
    that starts with the component [~] and has no parent segment passes the
    check of [create_directory] and is expanded and made absolute before any
    existence test or creation: the target is the home directory's
    components followed by the path's own, the working directory plays no
    part in it or in the outcome of the call, and a reported creation has
    made a directory exactly there. *)
Theorem home_paths_resolve_under_home
    (cwd cwd' : option string) (hm : string) (pw : string -> option string)
    (faults : string -> option exn)
    (run : list string -> bool -> World -> result CompletedProcess)
    (rest : string) (w : World) :
  let h := posix_host cwd (Some hm) pw faults run in
  let h' := posix_host cwd' (Some hm) pw faults run in
  let dir_path := "~" +:+ rest in
  let expanded := posixpath.expanduser (Some hm) pw dir_path in
  let target :=
    posixpath.slashes (posixpath.initial_slashes expanded)
    +:+ Str.join "/" (posixpath.components hm ++ own_components rest) in
  Str.startswith hm "/" = true ->
  rest = "" \/ Str.startswith rest "/" = true ->
  ".." ∉ Str.split "/" dir_path ->
  abspath (os_path h) (expanduser (os_path h) dir_path) = Returned target
  /\ create_directory_execute h dir_path w
     = match fs w !! target with
       | Some Dir => (Returned ("Directory already exists: " +:+ dir_path), w)
       | Some File =>
           (Returned ("Error: Path exists but is not a directory: " +:+ dir_path), w)
       | None =>
           match makedirs h target w with
           | (Returned _, w') =>
               (Returned ("Successfully created directory: " +:+ dir_path), w')
           | (Raised e, w') =>
               (Returned ("Error creating directory: " +:+ exn_str e), w')
           end
       end
  /\ create_directory_execute h' dir_path w = create_directory_execute h dir_path w
  /\ (forall w',
        create_directory_execute h dir_path w
          = (Returned ("Successfully created directory: " +:+ dir_path), w') ->
        fs w !! target = None /\ fs w' !! target = Some Dir).
Proof.
intros h h' dir_path expanded target Habs Hrest Hno.
assert (Hno' : ".." ∉ Str.split "/" rest).
{ destruct Hrest as [->|[r' ->]%startswith_slash].
  - intros Hin. apply (bool_decide_eq_true_2 _) in Hin. vm_compute in Hin.
    discriminate Hin.
  - change (Str.split "/" dir_path) with ("~" :: Str.split "/" r') in Hno.
    change (Str.split "/" (String "/" r')) with ("" :: Str.split "/" r').
    apply not_elem_of_cons in Hno as [_ Hno].
    apply not_elem_of_cons. by split. }
destruct (expanded_components hm pw rest Habs Hrest Hno') as [Hexp Hcomps].
fold dir_path in Hexp, Hcomps. fold expanded in Hexp, Hcomps.
assert (Hres : forall c, posixpath.abspath c expanded = Returned target).
{ intros c. unfold posixpath.abspath, posixpath.isabs. rewrite Hexp.
  by rewrite (normpath_absolute _ Hexp), Hcomps. }
assert (Htarget : forall c,
  abspath (os_path (posix_host c (Some hm) pw faults run))
    (expanduser (os_path (posix_host c (Some hm) pw faults run)) dir_path)
  = Returned target) by (intros c; apply Hres).
assert (Hrun : forall c,
  create_directory_execute (posix_host c (Some hm) pw faults run) dir_path w
  = match fs w !! target with
    | Some Dir => (Returned ("Directory already exists: " +:+ dir_path), w)
    | Some File =>
        (Returned ("Error: Path exists but is not a directory: " +:+ dir_path), w)
    | None =>
        match makedirs h target w with
        | (Returned _, w') =>
            (Returned ("Successfully created directory: " +:+ dir_path), w')
        | (Raised e, w') =>
            (Returned ("Error creating directory: " +:+ exn_str e), w')
        end
    end).
{ intros c.
  rewrite (create_directory_resolved (posix_host c (Some hm) pw faults run)
             dir_path target w Hno (Htarget c)).
  reflexivity. }
split; [apply Htarget|]. split; [apply Hrun|]. split.
- unfold h', h. by rewrite !Hrun.
- intros w' Hok.
  apply create_directory_success_inv in Hok as (_ & t & Ht & Hnone & Hmk).
  unfold h in Ht. rewrite (Htarget cwd) in Ht. simplify_eq.
  split; [done|]. by eapply makedirs_ok.
Qed.

Lemma home_paths_resolve_under_home_witness :
  let h := unix_host (Some "/work/project") (Some "/home/u/") (completed 0 "" "") in
  abspath (os_path h) (expanduser (os_path h) "~/.config/./app")
    = Returned "/home/u/.config/app"
  /\ exists w',
       create_directory_execute h "~/.config/./app" sample_world
         = (Returned "Successfully created directory: ~/.config/./app", w')
       /\ fs w' !! "/home/u/.config/app" = Some Dir.
Proof.
intros h.
assert (Hno : ".." ∉ Str.split "/" ("~" +:+ "/.config/./app")).
{ intros Hin. apply (bool_decide_eq_true_2 _) in Hin. vm_compute in Hin.
  discriminate Hin. }
destruct (home_paths_resolve_under_home (Some "/work/project") None "/home/u/"
            (fun _ => None) (fun _ => None) (fun _ _ _ => completed 0 "" "")
            "/.config/./app" sample_world eq_refl (or_intror eq_refl) Hno)
  as (Hres & _ & _ & Hmade).
split; [exact Hres|].
destruct (create_directory_execute h "~/.config/./app" sample_world) as [r w'] eqn:Hrun.
assert (Hr : r = Returned "Successfully created directory: ~/.config/./app").
{ apply (f_equal fst) in Hrun. vm_compute in Hrun. by symmetry. }
subst r. exists w'. split; [reflexivity|].
exact (proj2 (Hmade w' Hrun)).
Defined.

(** The same call from two working directories touches the same place. *)
Example tilde_escapes_working_directory :
  let h := unix_host (Some "/work") (Some "/home/u") (completed 0 "" "") in
  (".." ∉ Str.split (sep (os_path h)) "~/x")
  /\ (exists w', create_directory_execute h "~/x" sample_world
                   = (Returned "Successfully created directory: ~/x", w')
                 /\ fs w' !! "/home/u/x" = Some Dir
                 /\ fs w' !! "/work/~/x" = None).
Proof.
intros h. split.
- intros Hin. apply (bool_decide_eq_true_2 _) in Hin. vm_compute in Hin.
  discriminate Hin.
- eexists. split; [vm_compute; reflexivity|]. split; vm_compute; reflexivity.
Qed.

(** * Further properties *)

(** ** What the tools leave untouched *)

Lemma grows_refl allowed w : grows allowed w w.
Proof.
split; [done|]. split; [done|].
intros p Hnone [k Hk]. by rewrite Hnone in Hk.
Qed.

Lemma grows_trans l1 l2 w w1 w2 :
  grows l1 w w1 -> grows l2 w1 w2 -> grows (l1 ++ l2) w w2.
Proof.
intros (Hc1 & Hk1 & Hn1) (Hc2 & Hk2 & Hn2).
split; [by rewrite Hc2|]. split; [by eauto|].
intros p Hnone Hsome.
destruct (fs w1 !! p) as [k|] eqn:Hmid.
- destruct (Hn1 p Hnone) as [Hdir Hin]; [by rewrite Hmid|].
  rewrite Hmid in Hdir. simplify_eq. split; [by apply Hk2|].
  apply elem_of_app. by left.
- destruct (Hn2 p Hmid Hsome) as [Hdir Hin]. split; [done|].
  apply elem_of_app. by right.
Qed.

Lemma grows_weaken l l' w w' : l ⊆ l' -> grows l w w' -> grows l' w w'.
Proof.
intros Hsub (Hc & Hk & Hn). split; [done|]. split; [done|].
intros p Hnone Hsome. destruct (Hn p Hnone Hsome). split; [done|]. by apply Hsub.
Qed.

Lemma grows_insert p w :
  fs w !! p = None -> grows [p] w (set_fs (insert p Dir) w).
Proof.
intros Hnone. unfold grows, set_fs. cbn [fs calls]. split; [done|]. split.
- intros q kq Hq. rewrite lookup_insert_ne; [done|]. intros ->. congruence.
- intros q Hq Hsome. destruct (decide (p = q)) as [->|Hne].
  + rewrite lookup_insert_eq. split; [done|]. by apply list_elem_of_singleton.
  + rewrite lookup_insert_ne in Hsome by done. destruct Hsome as [kq Hkq]. congruence.
Qed.

Lemma mkdir_grows h parent p w : grows [p] w (mkdir h parent p w).2.
Proof.
unfold mkdir. repeat case_match; simpl;
  first [apply grows_refl | by apply grows_insert].
Qed.

Lemma mkdir_leaf_grows h parent name w :
  grows [name] w
    (try_except (mkdir h parent name)
       [ (OSError, fun e => d ← isdir name; if d : bool then mret tt else raise e) ] w).2.
Proof.
pose proof (mkdir_grows h parent name w) as Hg.
unfold try_except. destruct (mkdir h parent name w) as [[[]|e] w1]; [done|].
simpl in *. case_match; [|done]. unfold_monad. by case_bool_decide.
Qed.

Lemma mkdir_ancestor_grows h parent a w :
  grows [a] w
    (try_except (mkdir h parent a) [ (FileExistsError, fun _ => mret tt) ] w).2.
Proof.
pose proof (mkdir_grows h parent a w) as Hg.
unfold try_except. destruct (mkdir h parent a w) as [[[]|e] w1]; [done|].
simpl in *. by case_match.
Qed.

Lemma makedirs_from_grows h chain : forall parent name w,
  grows (chain ++ [name]) w (makedirs_from h parent chain name w).2.
Proof.
induction chain as [|a chain IH]; intros parent name w.
- apply mkdir_leaf_grows.
- cbn [makedirs_from]. unfold mbind, M_bind at 1. unfold path_exists at 1.
  unfold mbind, M_bind at 1.
  destruct (bool_decide (is_Some (fs w !! a))).
  + unfold mret, M_ret.
    apply (grows_weaken (chain ++ [name])); [|apply IH].
    intros x Hx. by apply elem_of_cons; right.
  + pose proof (mkdir_ancestor_grows h parent a w) as Hg.
    destruct (try_except _ _ w) as [[[]|e] w1]; simpl in *.
    * apply (grows_trans [a] (chain ++ [name]) _ w1); [done|apply IH].
    * apply (grows_weaken [a]); [|done].
      intros x ->%list_elem_of_singleton. by apply elem_of_cons; left.
Qed.

(** Whatever it returns, [create_directory] only adds directories, and only
    at the resolved target and its ancestors. *)
Lemma create_directory_grows h dir_path w :
  grows
    (match abspath (os_path h) (expanduser (os_path h) dir_path) with
     | Returned target => parents (os_path h) target ++ [target]
     | Raised _ => []
     end)
    w (create_directory_execute h dir_path w).2.
Proof.
destruct (decide (".." ∈ Str.split (sep (os_path h)) dir_path)) as [Hin|Hok].
{ rewrite create_directory_rejected by done. apply grows_refl. }
destruct (abspath (os_path h) (expanduser (os_path h) dir_path)) as [target|e] eqn:Hres.
- rewrite (create_directory_resolved _ _ _ _ Hok Hres).
  destruct (fs w !! target) as [[]|]; try apply grows_refl.
  pose proof (makedirs_from_grows h (parents (os_path h) target) None target w) as Hg.
  fold (makedirs h target) in Hg.
  by destruct (makedirs h target w) as [[[]|e] w'].
- rewrite (create_directory_unresolved _ _ _ _ Hok Hres). apply grows_refl.
Qed.

(** X1. [create_directory] never launches an external command, whatever
    its argument and whatever it returns. *)
Theorem create_directory_launches_nothing (h : Host) (dir_path : string) (w : World) :
  calls (create_directory_execute h dir_path w).2 = calls w.
Proof. by destruct (create_directory_grows h dir_path w) as (Hc & _). Qed.

(** X2. [create_directory] never removes or changes an entry that exists:
    whatever it returns, every path present before the call is present
    after it with the same kind. *)
Theorem create_directory_keeps_entries (h : Host) (dir_path : string) (w : World)
    (p : string) (k : kind) :
  fs w !! p = Some k ->
  fs (create_directory_execute h dir_path w).2 !! p = Some k.
Proof.
destruct (create_directory_grows h dir_path w) as (_ & Hkeep & _). apply Hkeep.
Qed.

Lemma create_directory_keeps_entries_witness :
  let h := unix_host (Some "/work") (Some "/home/u") (completed 0 "" "") in
  fs (create_directory_execute h "notes/sub" sample_world).2 !! "/work/notes"
  = Some File.
Proof.
intros h.
apply (create_directory_keeps_entries h "notes/sub" sample_world "/work/notes" File).
vm_compute. reflexivity.
Defined.

(** X3. Whatever [create_directory] returns, an entry that is present after
    the call and was not before is a directory, and it lies at the resolved
    target or at one of the target's ancestors. *)
Theorem create_directory_footprint (h : Host) (dir_path : string) (w : World)
    (p : string) :
  fs w !! p = None ->
  is_Some (fs (create_directory_execute h dir_path w).2 !! p) ->
  fs (create_directory_execute h dir_path w).2 !! p = Some Dir
  /\ exists target,
       abspath (os_path h) (expanduser (os_path h) dir_path) = Returned target
       /\ (p = target \/ p ∈ parents (os_path h) target).
Proof.
intros Hnone Hsome.
destruct (create_directory_grows h dir_path w) as (_ & _ & Hnew).
destruct (Hnew p Hnone Hsome) as [Hdir Hin]. split; [done|].
destruct (abspath (os_path h) (expanduser (os_path h) dir_path)) as [target|e].
- exists target. split; [done|].
  apply elem_of_app in Hin as [Hin|Hin]; [by right|].
  left. by apply list_elem_of_singleton in Hin.
- by apply elem_of_nil in Hin.
Qed.

Lemma create_directory_footprint_witness :
  let h := unix_host (Some "/work") (Some "/home/u") (completed 0 "" "") in
  fs (create_directory_execute h "a/b" sample_world).2 !! "/work/a" = Some Dir
  /\ exists target,
       abspath (os_path h) (expanduser (os_path h) "a/b") = Returned target
       /\ ("/work/a" = target \/ "/work/a" ∈ parents (os_path h) target).
Proof.
intros h. apply (create_directory_footprint h "a/b" sample_world "/work/a").
- vm_compute. reflexivity.
- exists Dir. vm_compute. reflexivity.
Defined.

Lemma mkdir_ancestor_made h parent a w w1 :
  genuine_faults h ->
  try_except (mkdir h parent a) [ (FileExistsError, fun _ => mret tt) ] w
  = (Returned tt, w1) ->
  is_Some (fs w1 !! a).
Proof.
intros Hgen. unfold mkdir. unfold_monad. intros Hrun.
destruct (fs w !! a) as [k|] eqn:Ha.
{ simpl in Hrun. simplify_eq. by eauto. }
destruct parent as [q|]; simpl in Hrun;
  [destruct (fs w !! q) as [[]|]; simpl in Hrun; try done|].
all: destruct (mkdir_fault h a) as [e|] eqn:He; simpl in Hrun;
  [ case_bool_decide; [by destruct (Hgen a e He)|done]
  | simplify_eq; unfold set_fs; cbn [fs]; rewrite lookup_insert_eq; by eauto ].
Qed.

Lemma makedirs_from_ancestors h chain :
  genuine_faults h ->
  forall parent name w w',
  makedirs_from h parent chain name w = (Returned tt, w') ->
  forall a, a ∈ chain -> is_Some (fs w' !! a).
Proof.
intros Hgen.
induction chain as [|a0 chain IH]; intros parent name w w' Hrun a Hin.
{ by apply elem_of_nil in Hin. }
cbn [makedirs_from] in Hrun. unfold mbind, M_bind at 1 in Hrun.
unfold path_exists at 1 in Hrun. unfold mbind, M_bind at 1 in Hrun.
assert (Hstep : exists w1, is_Some (fs w1 !! a0)
          /\ makedirs_from h (Some a0) chain name w1 = (Returned tt, w')).
{ destruct (bool_decide (is_Some (fs w !! a0))) eqn:Hex.
  - exists w. split; [by apply bool_decide_eq_true_1 in Hex|done].
  - destruct (try_except _ _ w) as [[[]|e] w1] eqn:Hmk; [|done].
    exists w1. split; [by eapply mkdir_ancestor_made|done]. }
destruct Hstep as (w1 & [k0 Hk0] & Hrest).
apply elem_of_cons in Hin as [->|Hin]; [|by eapply IH].
pose proof (makedirs_from_grows h chain (Some a0) name w1) as (_ & Hkeep & _).
rewrite Hrest in Hkeep. exists k0. by apply Hkeep.
Qed.

(** X4. On a host whose [mkdir] reports [FileExistsError] only for entries
    that exist, after [create_directory] has reported a successful creation
    every ancestor of the resolved target exists: the missing ones were made
    along with the target. *)
Theorem create_directory_makes_ancestors (h : Host) (dir_path target : string)
    (w w' : World) (a : string) :
  genuine_faults h ->
  create_directory_execute h dir_path w
    = (Returned ("Successfully created directory: " +:+ dir_path), w') ->
  abspath (os_path h) (expanduser (os_path h) dir_path) = Returned target ->
  a ∈ parents (os_path h) target ->
  is_Some (fs w' !! a).
Proof.
intros Hgen Hrun Hres Hin.
apply create_directory_success_inv in Hrun as (_ & t & Ht & _ & Hmk).
rewrite Hres in Ht. simplify_eq. by eapply makedirs_from_ancestors.
Qed.

Lemma create_directory_makes_ancestors_witness :
  let h := unix_host (Some "/work") (Some "/home/u") (completed 0 "" "") in
  is_Some (fs (create_directory_execute h "a/b/c" sample_world).2 !! "/work/a/b").
Proof.
intros h.
assert (Hgen : genuine_faults h) by (intros p e He; discriminate He).
destruct (create_directory_execute h "a/b/c" sample_world) as [r w'] eqn:Hrun.
assert (Hr : r = Returned ("Successfully created directory: " +:+ "a/b/c")).
{ apply (f_equal fst) in Hrun. vm_compute in Hrun. by symmetry. }
subst r.
apply (create_directory_makes_ancestors h "a/b/c" "/work/a/b/c" sample_world w'
         "/work/a/b" Hgen Hrun); [reflexivity|].
apply (bool_decide_eq_true_1 _). vm_compute. reflexivity.
Defined.

(** ** The listing tools: effects, empty paths, bounds *)


(** X6. An empty path is treated as no path at all: [ls] and [tree] then run
    on [.], and [ls] does not refuse it. *)
Theorem empty_path_means_current_directory (h : Host) (depth : option Z) (w : World) :
  ls_execute h (Some "") w = ls_execute h None w
  /\ tree_execute h (Some "") depth w = tree_execute h None depth w
  /\ (ls_execute h (Some "") w).2
     = record_call (ls_command h ".") (IS_WINDOWS h) w
  /\ last (tree_command h (Some "") depth) = Some ".".
Proof.
split; [done|]. split; [done|]. split.
- change (ls_execute h (Some "") w) with (ls_run h "." w). apply ls_run_world.
- unfold tree_command. by destruct (IS_WINDOWS h).
Qed.

Lemma truncation_bound n out :
  (0 < n)%nat ->
  (length (Str.splitlines
     (if (n <? length (Str.splitlines out))%nat
      then Str.join LINE_FEED (take n (Str.splitlines out))
           +:+ String Str.LF "... (output truncated)"
      else out)) <= S n)%nat.
Proof.
intros Hn. pose proof (truncation_sanitized n out Hn) as Hs.
unfold sanitized in Hs. cbv zeta in Hs.
destruct (n <? length (Str.splitlines out))%nat eqn:Hb.
- apply Nat.ltb_lt in Hb. destruct Hs as [Hover _].
  destruct (Hover Hb) as (_ & _ & Hlen). lia.
- apply Nat.ltb_ge in Hb. lia.
Qed.

(** X7. A successful listing is never longer than the budget plus the
    marker: the string [ls] returns after exit status 0 has at most 101
    lines, the one [tree] returns at most 201. *)
Theorem listing_output_bounded (h : Host) (w : World) (process : CompletedProcess) :
  returncode process = 0 ->
  (forall path : option string,
     ls_rejects h path = false ->
     run_outcome h (ls_command h (ls_target h path)) (IS_WINDOWS h) w
       = Returned process ->
     exists r, (ls_execute h path w).1 = Returned r
               /\ (length (Str.splitlines r) <= 101)%nat)
  /\ (forall (path : option string) (depth : option Z),
        run_outcome h (tree_command h path depth) (IS_WINDOWS h) w
          = Returned process ->
        exists r, (tree_execute h path depth w).1 = Returned r
                  /\ (length (Str.splitlines r) <= 201)%nat).
Proof.
intros Hrc. split.
- intros path Hok Hrun. rewrite ls_execute_accepted by done.
  rewrite (ls_run_completed _ _ _ _ Hrun), Hrc. simpl (0 =? 0).
  eexists. split; [reflexivity|]. apply (truncation_bound 100). lia.
- intros path depth Hrun.
  rewrite (tree_completed _ _ _ _ _ Hrun), Hrc. simpl (0 =? 0).
  eexists. split; [reflexivity|]. apply (truncation_bound 200). lia.
Qed.

Lemma listing_output_bounded_witness :
  let out := Str.join LINE_FEED (replicate 150 "entry") in
  let process := {| returncode := 0; stdout := out; stderr := "" |} in
  let h := unix_host (Some "/work") None (Returned process) in
  exists r, (ls_execute h (Some "src") empty_world).1 = Returned r
            /\ (length (Str.splitlines r) <= 101)%nat.
Proof.
intros out process h.
apply (proj1 (listing_output_bounded h empty_world process eq_refl) (Some "src"));
  reflexivity.
Defined.

Lemma tree_execute_by_command h path d1 d2 w :
  tree_command h path d1 = tree_command h path d2 ->
  tree_execute h path d1 w = tree_execute h path d2 w.
Proof. intros Hcmd. unfold tree_execute. by rewrite Hcmd. Qed.

(** X8. [tree] uses its depth argument only through the clamped limit: a
    depth [d] gives the same run as [max(1, min(d, 10))], no depth the same
    run as depth 3, and a depth between 1 and 10 is its own limit. *)
Theorem tree_depth_acts_through_limit (h : Host) (path : option string) (w : World) :
  (forall d : Z,
     tree_execute h path (Some d) w
     = tree_execute h path (Some (Z.max 1 (Z.min d 10))) w)
  /\ tree_execute h path None w = tree_execute h path (Some 3) w
  /\ (forall d : Z, d <= 1 -> tree_execute h path (Some d) w
                               = tree_execute h path (Some 1) w)
  /\ (forall d : Z, 10 <= d -> tree_execute h path (Some d) w
                                = tree_execute h path (Some 10) w).
Proof.
assert (Hlim : forall d1 d2,
  tree_depth_limit d1 = tree_depth_limit d2 ->
  tree_execute h path d1 w = tree_execute h path d2 w).
{ intros d1 d2 Heq. apply tree_execute_by_command.
  unfold tree_command. by rewrite Heq. }
repeat apply conj.
- intros d. apply Hlim. unfold tree_depth_limit, MAX_TREE_DEPTH. lia.
- by apply Hlim.
- intros d Hd. apply Hlim. unfold tree_depth_limit, MAX_TREE_DEPTH. lia.
- intros d Hd. apply Hlim. unfold tree_depth_limit, MAX_TREE_DEPTH. lia.
Qed.

Lemma tree_depth_acts_through_limit_witness :
  let h := unix_host (Some "/work") None (completed 0 "." "") in
  tree_execute h None (Some (-4)) empty_world = tree_execute h None (Some 1) empty_world.
Proof.
intros h.
destruct (tree_depth_acts_through_limit h None empty_world) as (_ & _ & Hlow & _).
apply Hlow. lia.
Defined.

(** X9. On a Windows-class host the depth argument has no effect at all:
    the command is [tree <target>] and any two depths give the same run. *)
Theorem tree_ignores_depth_on_windows (h : Host) (path : option string)
    (d1 d2 : option Z) (w : World) :
  IS_WINDOWS h = true ->
  tree_execute h path d1 w = tree_execute h path d2 w
  /\ tree_command h path d1 = ["tree"; tree_target path].
Proof.
intros Hwin.
assert (Hcmd : forall d, tree_command h path d = ["tree"; tree_target path]).
{ intros d. unfold tree_command. by rewrite Hwin. }
split; [|apply Hcmd]. apply tree_execute_by_command. by rewrite !Hcmd.
Qed.

Lemma tree_ignores_depth_on_windows_witness :
  let h := windows_host (posixpath.os_path None None (fun _ => None))
             (completed 0 "." "") in
  tree_execute h (Some "src") (Some 1) empty_world
  = tree_execute h (Some "src") (Some 9) empty_world.
Proof.
intros h.
exact (proj1 (tree_ignores_depth_on_windows h (Some "src") (Some 1) (Some 9)
                empty_world eq_refl)).
Defined.

(** ** The listing tools: missing executable, timeout, blank output *)

(** X10. When launching the command raises [FileNotFoundError], whatever its
    text, [ls] reports that [ls] (on a Windows-class host: [dir]) was not
    found, and [tree] reports that [tree] was not found with a hint that
    depends on the platform. *)
Theorem missing_executable_reported (h : Host) (w : World) (e : exn) :
  exn_cls e = FileNotFoundError ->
  (forall path : option string,
     ls_rejects h path = false ->
     run_outcome h (ls_command h (ls_target h path)) (IS_WINDOWS h) w = Raised e ->
     (ls_execute h path w).1
     = Returned ("Error: '" +:+ (if IS_WINDOWS h then "dir" else "ls")
                 +:+ "' command not found. Please ensure it is installed and in the system's PATH."))
  /\ (forall (path : option string) (depth : option Z),
        run_outcome h (tree_command h path depth) (IS_WINDOWS h) w = Raised e ->
        (tree_execute h path depth w).1
        = Returned
            (if IS_WINDOWS h
             then "Error: 'tree' command not found. This is a built-in Windows command, so this may indicate a system issue."
             else "Error: 'tree' command not found. Please install it using your package manager (e.g., 'apt-get install tree' on Debian/Ubuntu).")).
Proof.
intros Hcls.
assert (Hinst : isinstance e FileNotFoundError = true).
{ unfold isinstance. by rewrite Hcls. }
split.
- intros path Hok Hrun. rewrite ls_execute_accepted by done.
  by rewrite (ls_run_raised _ _ _ _ Hrun), Hinst.
- intros path depth Hrun. by rewrite (tree_raised _ _ _ _ _ Hrun), Hinst.
Qed.

Lemma missing_executable_reported_witness :
  let e := mk_exn FileNotFoundError "[Errno 2] No such file or directory: 'tree'" in
  let h := unix_host (Some "/work") None (Raised e) in
  (tree_execute h None None empty_world).1
  = Returned "Error: 'tree' command not found. Please install it using your package manager (e.g., 'apt-get install tree' on Debian/Ubuntu).".
Proof.
intros e h.
apply (proj2 (missing_executable_reported h empty_world e eq_refl) None None).
reflexivity.
Defined.

(** X11. When the command runs past its time limit ([TimeoutExpired]), [ls]
    and [tree] return their timeout message, which names the path the
    command was run on. *)
Theorem timeout_reported (h : Host) (w : World) (e : exn) :
  exn_cls e = TimeoutExpired ->
  (forall path : option string,
     ls_rejects h path = false ->
     run_outcome h (ls_command h (ls_target h path)) (IS_WINDOWS h) w = Raised e ->
     (ls_execute h path w).1
     = Returned ("Error: Directory listing timed out for path '"
                 +:+ ls_target h path +:+ "'."))
  /\ (forall (path : option string) (depth : option Z),
        run_outcome h (tree_command h path depth) (IS_WINDOWS h) w = Raised e ->
        (tree_execute h path depth w).1
        = Returned ("Error: Tree command timed out for path '" +:+ tree_target path
                    +:+ "'. The directory might be too large or complex.")).
Proof.
intros Hcls.
assert (Hfnf : isinstance e FileNotFoundError = false).
{ unfold isinstance. by rewrite Hcls. }
assert (Hto : isinstance e TimeoutExpired = true).
{ unfold isinstance. by rewrite Hcls. }
split.
- intros path Hok Hrun. rewrite ls_execute_accepted by done.
  by rewrite (ls_run_raised _ _ _ _ Hrun), Hfnf, Hto.
- intros path depth Hrun. by rewrite (tree_raised _ _ _ _ _ Hrun), Hfnf, Hto.
Qed.

Lemma timeout_reported_witness :
  let e := mk_exn TimeoutExpired "Command '['ls', '-lA', 'big']' timed out after 15 seconds" in
  let h := unix_host (Some "/work") None (Raised e) in
  (ls_execute h (Some "./big/") empty_world).1
  = Returned "Error: Directory listing timed out for path 'big'.".
Proof.
intros e h.
apply (proj1 (timeout_reported h empty_world e eq_refl) (Some "./big/"));
  reflexivity.
Defined.

Lemma lstrip_blank p s : all_chars p s = true -> Str.lstrip_by p s = "".
Proof.
induction s as [|c s IH]; [done|]. simpl. intros [Hc Hs]%andb_prop.
rewrite Hc. by apply IH.
Qed.

Lemma strip_blank s : all_chars Str.is_space s = true -> Str.strip s = "".
Proof. intros Hs. unfold Str.strip. by rewrite lstrip_blank. Qed.

Lemma lower_char_space c : Str.is_space c = true -> Str.lower_char c = c.
Proof.
destruct c as [[] [] [] [] [] [] [] []]; vm_compute;
  first [reflexivity | intros H; discriminate H].
Qed.

Lemma lower_blank s : all_chars Str.is_space s = true -> Str.lower s = s.
Proof.
induction s as [|c s IH]; [done|]. simpl. intros [Hc Hs]%andb_prop.
by rewrite lower_char_space, IH.
Qed.

(** A text made of whitespace contains no word. *)
Lemma contains_blank n rest hay :
  Str.is_space n = false ->
  all_chars Str.is_space hay = true ->
  Str.contains (String n rest) hay = false.
Proof.
intros Hn. induction hay as [|c hay IH]; [done|].
simpl. intros [Hc Hs]%andb_prop.
destruct (ascii_dec n c) as [->|_]; [congruence|]. by apply IH.
Qed.

Lemma names_missing_path_blank err :
  all_chars Str.is_space err = true -> names_missing_path err = false.
Proof.
intros Hs. unfold names_missing_path. rewrite lower_blank by done.
by rewrite !contains_blank.
Qed.

(** X12. When the command exits with status 0 and prints nothing but
    whitespace (or nothing at all), [ls] and [tree] return the empty
    string. *)
Theorem blank_output_gives_empty_string (h : Host) (w : World)
    (process : CompletedProcess) :
  returncode process = 0 ->
  all_chars Str.is_space (stdout process) = true ->
  (forall path : option string,
     ls_rejects h path = false ->
     run_outcome h (ls_command h (ls_target h path)) (IS_WINDOWS h) w
       = Returned process ->
     (ls_execute h path w).1 = Returned "")
  /\ (forall (path : option string) (depth : option Z),
        run_outcome h (tree_command h path depth) (IS_WINDOWS h) w
          = Returned process ->
        (tree_execute h path depth w).1 = Returned "").
Proof.
intros Hrc Hblank. split.
- intros path Hok Hrun. rewrite ls_execute_accepted by done.
  by rewrite (ls_run_completed _ _ _ _ Hrun), Hrc, strip_blank.
- intros path depth Hrun.
  by rewrite (tree_completed _ _ _ _ _ Hrun), Hrc, strip_blank.
Qed.

Lemma blank_output_gives_empty_string_witness :
  let process := {| returncode := 0; stdout := String Str.LF "  "; stderr := "" |} in
  let h := unix_host (Some "/work") None (Returned process) in
  (ls_execute h None empty_world).1 = Returned "".
Proof.
intros process h.
apply (proj1 (blank_output_gives_empty_string h empty_world process eq_refl eq_refl) None);
  reflexivity.
Defined.

(** X13. After a non-zero exit, the placeholder [(No stderr)] stands in for
    the detail only when standard error is empty.  When standard error is
    not empty but holds nothing but whitespace, the message of [ls] (and of
    [tree], for a status other than 127) ends right after the status. *)
Theorem blank_stderr_detail (h : Host) (w : World) (process : CompletedProcess) :
  returncode process <> 0 ->
  all_chars Str.is_space (stderr process) = true ->
  (forall path : option string,
     ls_rejects h path = false ->
     run_outcome h (ls_command h (ls_target h path)) (IS_WINDOWS h) w
       = Returned process ->
     (ls_execute h path w).1
     = Returned ("Error executing directory listing command (Code: "
                 +:+ Str.of_int (returncode process) +:+ "): "
                 +:+ (if Str.truthy (stderr process) then "" else "(No stderr)")))
  /\ (forall (path : option string) (depth : option Z),
        returncode process <> 127 ->
        run_outcome h (tree_command h path depth) (IS_WINDOWS h) w
          = Returned process ->
        (tree_execute h path depth w).1
        = Returned ("Error executing tree command (Code: "
                    +:+ Str.of_int (returncode process) +:+ "): "
                    +:+ (if Str.truthy (stderr process) then "" else "(No stderr)"))).
Proof.
intros Hrc Hblank. apply Z.eqb_neq in Hrc. split.
- intros path Hok Hrun. rewrite ls_execute_accepted by done.
  rewrite (ls_run_completed _ _ _ _ Hrun), Hrc.
  by rewrite names_missing_path_blank, strip_blank.
- intros path depth H127 Hrun. apply Z.eqb_neq in H127.
  rewrite (tree_completed _ _ _ _ _ Hrun), Hrc, H127.
  rewrite lower_blank by done. rewrite contains_blank by done.
  by rewrite strip_blank.
Qed.

Lemma blank_stderr_detail_witness :
  let process := {| returncode := 2; stdout := ""; stderr := String Str.LF "" |} in
  let h := unix_host (Some "/work") None (Returned process) in
  (ls_execute h None empty_world).1
  = Returned "Error executing directory listing command (Code: 2): ".
Proof.
intros process h.
assert (Hrc : returncode process <> 0) by (simpl; lia).
apply (proj1 (blank_stderr_detail h empty_world process Hrc eq_refl) None);
  reflexivity.
Defined.

(** ** The path check of [ls] on a POSIX host *)

Lemma normpath_no_parent p :
  Str.startswith p "/" = false ->
  ".." ∉ Str.split "/" p ->
  posixpath.normpath p
  = (if String.eqb p "" then "."
     else if String.eqb (Str.join "/" (own_components p)) "" then "."
     else Str.join "/" (own_components p)).
Proof.
intros Hrel Hno. unfold posixpath.normpath, posixpath.components.
unfold posixpath.initial_slashes. rewrite Hrel.
rewrite fold_step_no_parent by done. reflexivity.
Qed.

Lemma split_two_dots s :
  exists x xs, Str.split "/" (".." +:+ s) = (".." +:+ x) :: xs.
Proof.
pose proof (split_not_nil "/" s) as Hne.
change (Str.split "/" (".." +:+ s))
  with (Str.cons_char "." (Str.cons_char "." (Str.split "/" s))).
destruct (Str.split "/" s) as [|x xs]; [done|]. by exists x, xs.
Qed.

Lemma prefix_empty t : String.prefix "" t = true.
Proof. by destruct t. Qed.

Lemma join_head_two_dots x l :
  Str.startswith (Str.join "/" ((".." +:+ x) :: l)) ".." = true.
Proof.
unfold Str.startswith. destruct l as [|y l].
- change (Str.join "/" [".." +:+ x]) with (String "." (String "." x)).
  cbn. apply prefix_empty.
- change (Str.join "/" ((".." +:+ x) :: y :: l))
    with (String "." (String "." (x +:+ "/" +:+ Str.join "/" (y :: l)))).
  cbn. apply prefix_empty.
Qed.

(** X14. On a POSIX host [ls] refuses every path that begins with two dots,
    also when the path has no parent segment at all and its first name
    merely starts with two dots, as in [..cache/logs]. *)
Theorem ls_refuses_names_starting_with_two_dots
    (cwd home : option string) (pw : string -> option string)
    (faults : string -> option exn)
    (run : list string -> bool -> World -> result CompletedProcess)
    (s : string) (w : World) :
  ".." ∉ Str.split "/" (".." +:+ s) ->
  ls_execute (posix_host cwd home pw faults run) (Some (".." +:+ s)) w
  = (Returned (invalid_path_message (".." +:+ s)), w).
Proof.
intros Hno. apply (ls_execute_rejected _ (Some (".." +:+ s))).
unfold ls_rejects. apply andb_true_intro. split; [reflexivity|].
change (normpath (os_path (posix_host cwd home pw faults run)))
  with posixpath.normpath.
change (default "" (Some (".." +:+ s))) with (".." +:+ s).
rewrite normpath_no_parent by done.
change (String.eqb (".." +:+ s) "") with false. cbv iota.
unfold own_components.
destruct (split_two_dots s) as (x & xs & ->).
rewrite filter_cons_True by (split; intros Heq; discriminate Heq).
pose proof (join_head_two_dots x (filter (fun c => c <> "" /\ c <> ".") xs)) as Hj.
destruct (Str.join "/" _) as [|c t] eqn:Hjoin; [discriminate Hj|exact Hj].
Qed.

Lemma ls_refuses_names_starting_with_two_dots_witness :
  let h := unix_host (Some "/work") None (completed 0 "" "") in
  ls_execute h (Some "..cache/logs") empty_world
  = (Returned (invalid_path_message "..cache/logs"), empty_world).
Proof.
intros h.
apply (ls_refuses_names_starting_with_two_dots (Some "/work") None (fun _ => None)
         (fun _ => None) (fun _ _ _ => completed 0 "" "") "cache/logs" empty_world).
intros Hin. apply (bool_decide_eq_true_2 _) in Hin. vm_compute in Hin.
discriminate Hin.
Defined.

Lemma slashes_head k t :
  k <> 0%nat -> exists t', posixpath.slashes k +:+ t = String "/" t'.
Proof. destruct k as [|k]; [done|]. intros _. by eexists. Qed.

(** X15. On a POSIX host [ls] never refuses an absolute path: whatever
    follows the leading slash, parent segments included, the listing command
    is launched on the normalised path. *)
Theorem ls_accepts_absolute_paths
    (cwd home : option string) (pw : string -> option string)
    (faults : string -> option exn)
    (run : list string -> bool -> World -> result CompletedProcess)
    (p : string) (w : World) :
  Str.startswith p "/" = true ->
  ls_rejects (posix_host cwd home pw faults run) (Some p) = false
  /\ (ls_execute (posix_host cwd home pw faults run) (Some p) w).2
     = record_call ["ls"; "-lA"; posixpath.normpath p] false w.
Proof.
intros Habs.
assert (Hok : ls_rejects (posix_host cwd home pw faults run) (Some p) = false).
{ unfold ls_rejects. apply andb_false_intro2.
  change (normpath (os_path (posix_host cwd home pw faults run)))
    with posixpath.normpath.
  change (default "" (Some p)) with p. rewrite (normpath_absolute _ Habs).
  destruct (slashes_head (posixpath.initial_slashes p)
              (Str.join "/" (posixpath.components p))
              (initial_slashes_absolute _ Habs)) as [t' ->].
  reflexivity. }
split; [done|]. rewrite ls_execute_accepted by done. rewrite ls_run_world.
destruct (startswith_slash _ Habs) as [p' ->]. reflexivity.
Qed.

Lemma ls_accepts_absolute_paths_witness :
  let h := unix_host (Some "/work") None (completed 0 "" "") in
  (ls_execute h (Some "/work/../../etc") empty_world).2
  = record_call ["ls"; "-lA"; "/etc"] false empty_world.
Proof.
intros h.
exact (proj2 (ls_accepts_absolute_paths (Some "/work") None (fun _ => None)
                (fun _ => None) (fun _ _ _ => completed 0 "" "")
                "/work/../../etc" empty_world eq_refl)).
Defined.

(** ** Where [create_directory] puts relative and absolute paths (POSIX) *)

Lemma expanduser_plain home pw p :
  Str.startswith p "~" = false -> posixpath.expanduser home pw p = p.
Proof.
destruct p as [|[[] [] [] [] [] [] [] []] t]; try reflexivity.
unfold Str.startswith. cbn. by rewrite prefix_empty.
Qed.

Lemma endswith_char_inv c s :
  posixpath.endswith_char c s = true -> exists s', s = s' +:+ String c "".
Proof.
induction s as [|x s IH]; [done|]. simpl. destruct s as [|y s].
- intros ->%Ascii.eqb_eq. by exists "".
- intros Hs. destruct (IH Hs) as [s' Hs']. exists (String x s').
  change (String x s' +:+ String c "") with (String x (s' +:+ String c "")).
  by rewrite <- Hs'.
Qed.

Lemma joined_components cwd p :
  Str.startswith cwd "/" = true ->
  Str.startswith p "/" = false ->
  ".." ∉ Str.split "/" p ->
  Str.startswith (posixpath.join cwd p) "/" = true
  /\ posixpath.components (posixpath.join cwd p)
     = posixpath.components cwd ++ own_components p.
Proof.
intros Habs Hrel Hno.
pose proof (initial_slashes_absolute _ Habs) as Hk.
destruct (startswith_slash _ Habs) as [c ->].
unfold posixpath.join. rewrite Hrel. cbn [Str.truthy negb orb].
destruct (posixpath.endswith_char "/" (String "/" c)) eqn:Hend.
- split; [apply startswith_slash_cons|].
  destruct (endswith_char_inv _ _ Hend) as [c' Hc'].
  unfold posixpath.components at 2.
  rewrite (fold_step_slashes _ 1) by done.
  rewrite Hc' at 2. rewrite split_cons_sep, fold_left_app.
  change (fold_left (posixpath.normpath_step 1) (Str.split "/" "")
            (fold_left (posixpath.normpath_step 1) (Str.split "/" c') []))
    with (fold_left (posixpath.normpath_step 1) (Str.split "/" c') []).
  unfold posixpath.components.
  rewrite (fold_step_slashes _ 1)
    by (by try apply initial_slashes_absolute, startswith_slash_cons).
  rewrite Hc', append_assoc.
  change (String "/" "" +:+ p) with (String "/" p).
  rewrite split_cons_sep, fold_left_app.
  by rewrite fold_step_no_parent.
- split; [apply startswith_slash_cons|].
  unfold posixpath.components.
  rewrite (fold_step_slashes _ 1 _ [])
    by (by try apply initial_slashes_absolute, startswith_slash_cons).
  rewrite (fold_step_slashes (posixpath.initial_slashes (String "/" c)) 1) by done.
  change ("/" +:+ p) with (String "/" p).
  rewrite split_cons_sep, fold_left_app.
  by rewrite fold_step_no_parent.
Qed.

(** X16. On a POSIX host with an absolute working directory, a relative
    path that has no parent segment and does not start with [~] resolves
    inside the working directory: the target consists of the working
    directory's components followed by the path's own, and a reported
    creation has made a directory exactly there. *)
Theorem relative_paths_resolve_under_cwd
    (cwd : string) (home : option string) (pw : string -> option string)
    (faults : string -> option exn)
    (run : list string -> bool -> World -> result CompletedProcess)
    (p : string) (w : World) :
  let h := posix_host (Some cwd) home pw faults run in
  let target :=
    posixpath.slashes (posixpath.initial_slashes (posixpath.join cwd p))
    +:+ Str.join "/" (posixpath.components cwd ++ own_components p) in
  Str.startswith cwd "/" = true ->
  Str.startswith p "/" = false ->
  Str.startswith p "~" = false ->
  ".." ∉ Str.split "/" p ->
  abspath (os_path h) (expanduser (os_path h) p) = Returned target
  /\ (forall w',
        create_directory_execute h p w
          = (Returned ("Successfully created directory: " +:+ p), w') ->
        fs w !! target = None /\ fs w' !! target = Some Dir).
Proof.
intros h target Habs Hrel Htilde Hno.
destruct (joined_components cwd p Habs Hrel Hno) as [Hj Hcomps].
assert (Hres : abspath (os_path h) (expanduser (os_path h) p) = Returned target).
{ change (abspath (os_path h) (expanduser (os_path h) p))
    with (posixpath.abspath (Some cwd) (posixpath.expanduser home pw p)).
  rewrite expanduser_plain by done.
  unfold posixpath.abspath, posixpath.isabs. rewrite Hrel.
  by rewrite (normpath_absolute _ Hj), Hcomps. }
split; [done|]. intros w' Hok.
apply create_directory_success_inv in Hok as (_ & t & Ht & Hnone & Hmk).
rewrite Hres in Ht. simplify_eq. split; [done|]. by eapply makedirs_ok.
Qed.

Lemma relative_paths_resolve_under_cwd_witness :
  let h := unix_host (Some "/work/") (Some "/home/u") (completed 0 "" "") in
  abspath (os_path h) (expanduser (os_path h) "a/./b") = Returned "/work/a/b".
Proof.
intros h.
assert (Hno : ".." ∉ Str.split "/" "a/./b").
{ intros Hin. apply (bool_decide_eq_true_2 _) in Hin. vm_compute in Hin.
  discriminate Hin. }
exact (proj1 (relative_paths_resolve_under_cwd "/work/" (Some "/home/u")
                (fun _ => None) (fun _ => None) (fun _ _ _ => completed 0 "" "")
                "a/./b" sample_world eq_refl eq_refl eq_refl Hno)).
Defined.

(** X17. On a POSIX host an absolute path without parent segment is taken
    as it is, whatever the working directory and the home directory: the
    target is the path normalised, and a reported creation has made a
    directory there. *)
Theorem absolute_paths_taken_as_given
    (cwd home : option string) (pw : string -> option string)
    (faults : string -> option exn)
    (run : list string -> bool -> World -> result CompletedProcess)
    (p : string) (w : World) :
  let h := posix_host cwd home pw faults run in
  let target :=
    posixpath.slashes (posixpath.initial_slashes p)
    +:+ Str.join "/" (own_components p) in
  Str.startswith p "/" = true ->
  ".." ∉ Str.split "/" p ->
  abspath (os_path h) (expanduser (os_path h) p) = Returned target
  /\ (forall w',
        create_directory_execute h p w
          = (Returned ("Successfully created directory: " +:+ p), w') ->
        fs w !! target = None /\ fs w' !! target = Some Dir).
Proof.
intros h target Habs Hno.
assert (Hres : abspath (os_path h) (expanduser (os_path h) p) = Returned target).
{ change (abspath (os_path h) (expanduser (os_path h) p))
    with (posixpath.abspath cwd (posixpath.expanduser home pw p)).
  rewrite expanduser_plain
    by (destruct (startswith_slash _ Habs) as [p' ->]; reflexivity).
  unfold posixpath.abspath, posixpath.isabs. rewrite Habs.
  rewrite (normpath_absolute _ Habs). unfold posixpath.components.
  by rewrite fold_step_no_parent. }
split; [done|]. intros w' Hok.
apply create_directory_success_inv in Hok as (_ & t & Ht & Hnone & Hmk).
rewrite Hres in Ht. simplify_eq. split; [done|]. by eapply makedirs_ok.
Qed.

Lemma absolute_paths_taken_as_given_witness :
  let h := unix_host (Some "/work") (Some "/home/u") (completed 0 "" "") in
  abspath (os_path h) (expanduser (os_path h) "/etc//app/") = Returned "/etc/app".
Proof.
intros h.
assert (Hno : ".." ∉ Str.split "/" "/etc//app/").
{ intros Hin. apply (bool_decide_eq_true_2 _) in Hin. vm_compute in Hin.
  discriminate Hin. }
exact (proj1 (absolute_paths_taken_as_given (Some "/work") (Some "/home/u")
                (fun _ => None) (fun _ => None) (fun _ _ _ => completed 0 "" "")
                "/etc//app/" sample_world eq_refl Hno)).
Defined.

(** ** Normalised paths *)

Lemma split_no_slash c s :
  Forall (fun l => all_chars (fun x => negb (Ascii.eqb x c)) l = true)
    (Str.split c s).
Proof.
induction s as [|x s IH]; [by repeat constructor|]. simpl.
destruct (Ascii.eqb x c) eqn:Hx; [by constructor|].
destruct IH as [|l ls Hl Hls]; simpl.
- constructor; [|constructor]. simpl. by rewrite Hx.
- constructor; [|done]. simpl. by rewrite Hx.
Qed.

Lemma split_single c s :
  all_chars (fun x => negb (Ascii.eqb x c)) s = true -> Str.split c s = [s].
Proof.
induction s as [|x s IH]; [done|]. simpl. intros [Hx Hs]%andb_prop.
apply negb_true_iff in Hx. rewrite Hx, IH; done.
Qed.

(** Splitting a joined list of slash-free components gives the list back. *)
Lemma split_join cs :
  Forall (fun l => all_chars (fun x => negb (Ascii.eqb x "/")) l = true) cs ->
  cs <> [] ->
  Str.split "/" (Str.join "/" cs) = cs.
Proof.
induction cs as [|x cs IH]; [done|]. intros [Hx Hcs]%Forall_cons _.
destruct cs as [|y cs].
- by apply split_single.
- change (Str.join "/" (x :: y :: cs))
    with (x +:+ String "/" (Str.join "/" (y :: cs))).
  rewrite split_cons_sep, split_single by done. simpl. f_equal. by apply IH.
Qed.

Lemma normal_form_snoc k comps c :
  ordinary c -> normal_form k comps -> normal_form k (comps ++ [c]).
Proof.
intros Hc (n & r & -> & Hr & Hk). exists n, (r ++ [c]).
split; [by rewrite app_assoc|]. split; [|done].
apply Forall_app. split; [done|]. by apply Forall_singleton.
Qed.

(** One step of [normpath] keeps the normal form. *)
Lemma step_normal_form k comps c :
  all_chars (fun x => negb (Ascii.eqb x "/")) c = true ->
  normal_form k comps ->
  normal_form k (posixpath.normpath_step k comps c).
Proof.
intros Hc Hnf. unfold posixpath.normpath_step.
destruct (String.eqb_spec c "") as [->|Hc1]; [done|].
destruct (String.eqb_spec c ".") as [->|Hc2]; [done|]. cbn [orb].
destruct (String.eqb_spec c "..") as [->|Hc3]; cbn [negb orb].
2:{ by apply normal_form_snoc. }
destruct Hnf as (n & r & -> & Hr & Hk).
induction r as [|x r _] using rev_ind.
- rewrite app_nil_r. destruct n as [|n].
  + simpl. destruct (Nat.eqb_spec k 0) as [->|Hk0]; simpl.
    * exists 1%nat, []. by repeat split.
    * exists 0%nat, []. by repeat split.
  + rewrite replicate_S_end.
    assert (Hnil : posixpath.is_nil (replicate n ".." ++ [".."]) = false)
      by (by destruct (replicate n "..")).
    rewrite Hnil, last_last, andb_false_r. simpl.
    exists (S (S n)), []. split; [|split; [done|]].
    * by rewrite app_nil_r, (replicate_S_end (S n)), (replicate_S_end n).
    * intros Hk0. by specialize (Hk Hk0).
- apply Forall_app in Hr as [Hr [Hx _]%Forall_cons].
  rewrite app_assoc.
  assert (Hnil : posixpath.is_nil ((replicate n ".." ++ r) ++ [x]) = false)
    by (by destruct (replicate n ".." ++ r)).
  rewrite Hnil, last_last, andb_false_r. simpl.
  destruct (String.eqb_spec x "..") as [->|_].
  { by destruct Hx as (_ & _ & Hx & _). }
  rewrite removelast_last. by exists n, r.
Qed.

Lemma fold_normal_form k comps : forall acc,
  Forall (fun l => all_chars (fun x => negb (Ascii.eqb x "/")) l = true) comps ->
  normal_form k acc ->
  normal_form k (fold_left (posixpath.normpath_step k) comps acc).
Proof.
induction comps as [|c comps IH]; intros acc Hall Hacc; [done|].
apply Forall_cons in Hall as [Hc Hall]. simpl.
apply IH; [done|]. by apply step_normal_form.
Qed.

(** The components that [normpath] keeps are in normal form. *)
Lemma components_normal_form p :
  normal_form (posixpath.initial_slashes p) (posixpath.components p).
Proof.
unfold posixpath.components. apply fold_normal_form; [apply split_no_slash|].
exists 0%nat, []. by repeat split.
Qed.

Lemma split_slashes k t :
  Str.split "/" (posixpath.slashes k +:+ t) = replicate k "" ++ Str.split "/" t.
Proof.
induction k as [|k IH]; [done|].
change (posixpath.slashes (S k) +:+ t) with (String "/" (posixpath.slashes k +:+ t)).
simpl. by rewrite IH.
Qed.

Lemma ordinary_no_slash r :
  Forall ordinary r ->
  Forall (fun l => all_chars (fun x => negb (Ascii.eqb x "/")) l = true) r.
Proof. intros Hr. eapply Forall_impl; [exact Hr|]. by intros c (_ & _ & _ & Hc). Qed.

Lemma ordinary_not_parent r : Forall ordinary r -> ".." ∉ r.
Proof.
intros Hr Hin. rewrite Forall_forall in Hr.
by destruct (Hr _ Hin) as (_ & _ & Hne & _).
Qed.

(** A normalised path that does not begin with [..] has no parent segment
    anywhere. *)
Lemma normpath_parent_only_in_front p :
  Str.startswith (posixpath.normpath p) ".." = false ->
  ".." ∉ Str.split "/" (posixpath.normpath p).
Proof.
unfold posixpath.normpath.
destruct (String.eqb p ""); [by intros _ [Hd|Hin%elem_of_nil]%elem_of_cons|].
destruct (components_normal_form p) as (n & r & Hcs & Hr & Hk).
destruct (String.eqb _ "") eqn:Hempty;
  [by intros _ [Hd|Hin%elem_of_nil]%elem_of_cons|].
rewrite Hcs in *. intros Hstart.
assert (Hn : n = 0%nat).
{ destruct n as [|n]; [done|]. exfalso.
  destruct (decide (posixpath.initial_slashes p = 0%nat)) as [Hk0|Hk0];
    [|by specialize (Hk Hk0)].
  rewrite Hk0 in Hstart.
  change (posixpath.slashes 0 +:+ Str.join "/" (replicate (S n) ".." ++ r))
    with (Str.join "/" ((".." +:+ "") :: (replicate n ".." ++ r))) in Hstart.
  by rewrite join_head_two_dots in Hstart. }
subst n. cbn [replicate app] in *. rewrite split_slashes.
intros [Hin|Hin]%elem_of_app.
- by apply elem_of_replicate in Hin as [Hd _].
- destruct r as [|c r]; [by apply list_elem_of_singleton in Hin|].
  rewrite split_join in Hin by (by try apply ordinary_no_slash).
  by apply ordinary_not_parent in Hin.
Qed.

(** X18. On a POSIX host, whenever [ls] accepts a path, the path it hands to
    the listing command has no parent segment: what the check lets through
    has been normalised to a form without [..]. *)
Theorem ls_never_passes_parent_segment
    (cwd home : option string) (pw : string -> option string)
    (faults : string -> option exn)
    (run : list string -> bool -> World -> result CompletedProcess)
    (path : option string) (w : World) :
  let h := posix_host cwd home pw faults run in
  ls_rejects h path = false ->
  (ls_execute h path w).2
    = record_call ["ls"; "-lA"; ls_target h path] false w
  /\ ".." ∉ Str.split "/" (ls_target h path).
Proof.
intros h Hok. split.
- rewrite ls_execute_accepted by done. apply ls_run_world.
- unfold ls_rejects in Hok. unfold ls_target.
  destruct (given path); simpl in Hok.
  + by apply normpath_parent_only_in_front.
  + by intros [Hd|Hin%elem_of_nil]%elem_of_cons.
Qed.

Lemma ls_never_passes_parent_segment_witness :
  let h := unix_host (Some "/work") None (completed 0 "" "") in
  (ls_execute h (Some "a/b/../c/./..") empty_world).2
    = record_call ["ls"; "-lA"; "a"] false empty_world
  /\ ".." ∉ Str.split "/" (ls_target h (Some "a/b/../c/./..")).
Proof.
intros h.
exact (ls_never_passes_parent_segment (Some "/work") None (fun _ => None)
         (fun _ => None) (fun _ _ _ => completed 0 "" "")
         (Some "a/b/../c/./..") empty_world eq_refl).
Defined.

(** ** Normalising twice *)

Lemma last_replicate_parent m : List.last (replicate (S m) "..") "" = "..".
Proof. by rewrite replicate_S_end, last_last. Qed.

Lemma fold_parents n : forall m,
  fold_left (posixpath.normpath_step 0) (replicate n "..") (replicate m "..")
  = replicate (m + n) "..".
Proof.
induction n as [|n IH]; intros m.
- by rewrite Nat.add_0_r.
- cbn [replicate fold_left].
  assert (Hstep : posixpath.normpath_step 0 (replicate m "..") ".."
                  = replicate (S m) "..").
  { unfold posixpath.normpath_step. cbn [String.eqb orb negb Nat.eqb andb].
    destruct m as [|m]; [done|].
    rewrite last_replicate_parent.
    assert (Hnil : posixpath.is_nil (replicate (S m) "..") = false) by done.
    rewrite Hnil. cbn. by rewrite <- replicate_S_end. }
  change (String.eqb ".." "") with false in Hstep.
  rewrite Hstep, (IH (S m)). f_equal. lia.
Qed.

Lemma filter_ordinary r :
  Forall ordinary r -> filter (fun c => c <> "" /\ c <> ".") r = r.
Proof.
induction 1 as [|c r (Hc1 & Hc2 & _) Hr IH]; [done|].
rewrite filter_cons_True by done. by rewrite IH.
Qed.

(** Components in normal form come through [normpath] unchanged. *)
Lemma fold_normal k cs :
  normal_form k cs ->
  fold_left (posixpath.normpath_step k) cs [] = cs.
Proof.
intros (n & r & -> & Hr & Hk). rewrite fold_left_app.
assert (Hdots : fold_left (posixpath.normpath_step k) (replicate n "..") []
                = replicate n "..").
{ destruct n as [|n]; [done|].
  destruct (decide (k = 0%nat)) as [->|Hk0]; [|by specialize (Hk Hk0)].
  apply (fold_parents (S n) 0). }
rewrite Hdots, fold_step_no_parent by (by apply ordinary_not_parent).
by rewrite filter_ordinary.
Qed.

Lemma ordinary_head c :
  ordinary c -> exists x t, c = String x t /\ x <> "/"%char.
Proof.
intros (Hne & _ & _ & Hs). destruct c as [|x t]; [done|].
exists x, t. split; [done|]. simpl in Hs. apply andb_prop in Hs as [Hx _].
apply negb_true_iff in Hx. by apply Ascii.eqb_neq in Hx.
Qed.

Lemma join_head_no_slash k cs :
  normal_form k cs ->
  Str.join "/" cs = ""
  \/ exists x t, Str.join "/" cs = String x t /\ x <> "/"%char.
Proof.
intros (n & r & -> & Hr & _).
assert (Hfirst : forall c l, (exists x t, c = String x t /\ x <> "/"%char) ->
          exists x t, Str.join "/" (c :: l) = String x t /\ x <> "/"%char).
{ intros c l (x & t & -> & Hx). destruct l as [|y l]; [by eauto|].
  exists x, (t +:+ "/" +:+ Str.join "/" (y :: l)). by split. }
destruct n as [|n].
- destruct Hr as [|c r Hc Hr]; [by left|]. right.
  apply Hfirst. by apply ordinary_head.
- right. apply (Hfirst ".." (replicate n ".." ++ r)). by exists "."%char, ".".
Qed.

Lemma initial_slashes_bound p : (posixpath.initial_slashes p <= 2)%nat.
Proof. unfold posixpath.initial_slashes. repeat case_match; lia. Qed.

Lemma prefix_cons_ne a u x t :
  a <> x -> String.prefix (String a u) (String x t) = false.
Proof. intros Hne. cbn [String.prefix]. by destruct (ascii_dec a x). Qed.

Lemma prefix_cons_eq a u t :
  String.prefix (String a u) (String a t) = String.prefix u t.
Proof. cbn [String.prefix]. by destruct (ascii_dec a a). Qed.

Lemma prefix_slash_tail j :
  j = "" \/ (exists x t, j = String x t /\ x <> "/"%char) ->
  String.prefix "/" j = false.
Proof.
intros [->|(x & t & -> & Hx)]; [done|]. by apply prefix_cons_ne.
Qed.

(** Leading slashes survive normalisation as they are counted. *)
Lemma initial_slashes_of_normal k j :
  (k <= 2)%nat ->
  j = "" \/ (exists x t, j = String x t /\ x <> "/"%char) ->
  posixpath.slashes k +:+ j <> "" ->
  posixpath.initial_slashes (posixpath.slashes k +:+ j) = k.
Proof.
intros Hk Hj Hne. pose proof (prefix_slash_tail j Hj) as Htail.
unfold posixpath.initial_slashes, Str.startswith.
destruct k as [|[|[|k]]]; [| | |lia].
- change (posixpath.slashes 0 +:+ j) with j in *. by rewrite Htail.
- change (posixpath.slashes 1 +:+ j) with (String "/" j).
  rewrite !prefix_cons_eq, prefix_empty, Htail. done.
- change (posixpath.slashes 2 +:+ j) with (String "/" (String "/" j)).
  rewrite !prefix_cons_eq, !prefix_empty, Htail. done.
Qed.

(** A path put together from leading slashes and components in normal form
    is its own normalisation. *)
Lemma normpath_of_normal k cs :
  (k <= 2)%nat ->
  normal_form k cs ->
  posixpath.slashes k +:+ Str.join "/" cs <> "" ->
  posixpath.normpath (posixpath.slashes k +:+ Str.join "/" cs)
  = posixpath.slashes k +:+ Str.join "/" cs.
Proof.
intros Hk Hnf Hne.
pose proof (initial_slashes_of_normal k _ Hk (join_head_no_slash k cs Hnf) Hne) as Hinit.
assert (Hcomps : posixpath.components (posixpath.slashes k +:+ Str.join "/" cs) = cs).
{ unfold posixpath.components. rewrite Hinit, split_slashes, fold_left_app.
  rewrite fold_step_empties.
  destruct Hnf as (n & r & Hcs & Hr & Hn).
  destruct cs as [|c cs]; [done|].
  rewrite split_join; [apply fold_normal; by exists n, r| |done].
  rewrite Hcs. apply Forall_app. split; [|by apply ordinary_no_slash].
  by apply Forall_replicate. }
unfold posixpath.normpath. rewrite Hinit, Hcomps.
apply String.eqb_neq in Hne. by rewrite Hne.
Qed.

Lemma normpath_idempotent p :
  posixpath.normpath (posixpath.normpath p) = posixpath.normpath p.
Proof.
unfold posixpath.normpath at 2 3.
destruct (String.eqb p ""); [done|].
destruct (String.eqb_spec
            (posixpath.slashes (posixpath.initial_slashes p)
             +:+ Str.join "/" (posixpath.components p)) "") as [_|Hne]; [done|].
apply normpath_of_normal; [apply initial_slashes_bound|apply components_normal_form|done].
Qed.

Lemma normpath_truthy p : Str.truthy (posixpath.normpath p) = true.
Proof.
unfold posixpath.normpath. destruct (String.eqb p ""); [done|].
destruct (String.eqb_spec
            (posixpath.slashes (posixpath.initial_slashes p)
             +:+ Str.join "/" (posixpath.components p)) "") as [_|Hne]; [done|].
by destruct (posixpath.slashes _ +:+ _).
Qed.

(** X19. On a POSIX host normalising is idempotent, so [ls] treats a path
    and its normalised form alike: it refuses both or neither, and a path it
    accepts gives the same run as its normalised form. *)
Theorem ls_same_for_normalised_path
    (cwd home : option string) (pw : string -> option string)
    (faults : string -> option exn)
    (run : list string -> bool -> World -> result CompletedProcess)
    (p : string) (w : World) :
  let h := posix_host cwd home pw faults run in
  Str.truthy p = true ->
  posixpath.normpath (posixpath.normpath p) = posixpath.normpath p
  /\ ls_rejects h (Some (posixpath.normpath p)) = ls_rejects h (Some p)
  /\ (ls_rejects h (Some p) = false ->
      ls_execute h (Some (posixpath.normpath p)) w = ls_execute h (Some p) w).
Proof.
intros h Hp.
assert (Hrej : ls_rejects h (Some (posixpath.normpath p)) = ls_rejects h (Some p)).
{ unfold ls_rejects, given.
  change (normpath (os_path h)) with posixpath.normpath.
  change (default "" (Some (posixpath.normpath p))) with (posixpath.normpath p).
  change (default "" (Some p)) with p.
  by rewrite normpath_idempotent, normpath_truthy, Hp. }
split; [apply normpath_idempotent|]. split; [exact Hrej|].
intros Hok. rewrite !ls_execute_accepted by (by rewrite ?Hrej).
unfold ls_target, given.
change (normpath (os_path h)) with posixpath.normpath.
change (default "" (Some (posixpath.normpath p))) with (posixpath.normpath p).
change (default "" (Some p)) with p.
by rewrite normpath_idempotent, normpath_truthy, Hp.
Qed.

Lemma ls_same_for_normalised_path_witness :
  let h := unix_host (Some "/work") None (completed 0 "total 0" "") in
  ls_execute h (Some "src/tools") empty_world
  = ls_execute h (Some "src//./x/../tools/") empty_world.
Proof.
intros h.
destruct (ls_same_for_normalised_path (Some "/work") None (fun _ => None)
            (fun _ => None) (fun _ _ _ => completed 0 "total 0" "")
            "src//./x/../tools/" empty_world eq_refl) as (_ & _ & Hsame).
exact (Hsame eq_refl).
Defined.

(** ** More on the path check of [create_directory] *)

(** X20. [create_directory] returns the invalid-path error exactly when the
    path has a parent segment: no other path, whatever happens to it, yields
    that message. *)
Theorem create_directory_refuses_exactly_parent_segments (h : Host)
    (dir_path : string) (w : World) :
  (create_directory_execute h dir_path w).1 = Returned (invalid_path_message dir_path)
  <-> ".." ∈ Str.split (sep (os_path h)) dir_path.
Proof.
split; [|intros Hin; by rewrite create_directory_rejected].
intros Hmsg.
destruct (decide (".." ∈ Str.split (sep (os_path h)) dir_path)) as [|Hok]; [done|].
exfalso. unfold invalid_path_message in Hmsg.
destruct (abspath (os_path h) (expanduser (os_path h) dir_path)) as [target|e] eqn:Hres.
- rewrite (create_directory_resolved _ _ _ _ Hok Hres) in Hmsg.
  destruct (fs w !! target) as [[]|]; simpl in Hmsg; try by simplify_eq.
  destruct (makedirs h target w) as [[[]|e] w']; simpl in Hmsg; by simplify_eq.
- rewrite (create_directory_unresolved _ _ _ _ Hok Hres) in Hmsg.
  simpl in Hmsg. by simplify_eq.
Qed.

(** X21. On a POSIX host where the home directory of the user is unknown, a
    path that starts with the component [~] is not expanded: it resolves
    inside the working directory, under a component named [~]. *)
Theorem tilde_kept_when_home_unknown
    (cwd : string) (pw : string -> option string)
    (faults : string -> option exn)
    (run : list string -> bool -> World -> result CompletedProcess)
    (rest : string) :
  let h := posix_host (Some cwd) None pw faults run in
  let dir_path := "~" +:+ rest in
  Str.startswith cwd "/" = true ->
  rest = "" \/ Str.startswith rest "/" = true ->
  ".." ∉ Str.split "/" dir_path ->
  abspath (os_path h) (expanduser (os_path h) dir_path)
  = Returned
      (posixpath.slashes (posixpath.initial_slashes (posixpath.join cwd dir_path))
       +:+ Str.join "/" (posixpath.components cwd ++ "~" :: own_components rest)).
Proof.
intros h dir_path Habs Hrest Hno.
assert (Hexp : posixpath.expanduser None pw dir_path = dir_path).
{ destruct Hrest as [->|[r ->]%startswith_slash]; reflexivity. }
assert (Hown : own_components dir_path = "~" :: own_components rest).
{ destruct Hrest as [->|[r ->]%startswith_slash]; reflexivity. }
assert (Hrel : Str.startswith dir_path "/" = false) by reflexivity.
destruct (joined_components cwd dir_path Habs Hrel Hno) as [Hj Hcomps].
change (abspath (os_path h) (expanduser (os_path h) dir_path))
  with (posixpath.abspath (Some cwd) (posixpath.expanduser None pw dir_path)).
rewrite Hexp. unfold posixpath.abspath, posixpath.isabs. rewrite Hrel.
by rewrite (normpath_absolute _ Hj), Hcomps, Hown.
Qed.

Lemma tilde_kept_when_home_unknown_witness :
  let h := unix_host (Some "/work") None (completed 0 "" "") in
  abspath (os_path h) (expanduser (os_path h) "~/x") = Returned "/work/~/x".
Proof.
intros h.
assert (Hno : ".." ∉ Str.split "/" ("~" +:+ "/x")).
{ intros Hin. apply (bool_decide_eq_true_2 _) in Hin. vm_compute in Hin.
  discriminate Hin. }
exact (tilde_kept_when_home_unknown "/work" (fun _ => None) (fun _ => None)
         (fun _ _ _ => completed 0 "" "") "/x" eq_refl (or_intror eq_refl) Hno).
Defined.
